(** * Plane / solid intersection pipeline (intersector.py, step_file_lib.py,
      common_lib.py): shallow embedding and verified properties.

    The Python program drives the OpenCASCADE kernel (pythonocc) to load a
    solid from a STEP file, section it with a plane, classify the section
    and, when it is not empty, render an image and write the section to a
    new STEP file.

    Modelling choices.
    - Effects are explicit: every function of the program is a computation
      in a state-and-exception monad whose state is the chronological
      history of observable events (file-system queries, log redirections,
      kernel calls, terminal output).
    - The kernel and the file system are an oracle record [Env]: the
      answers of calls whose code is not part of the repository, with the
      facts about these answers that the properties rely on.
    - The numbers of [--in-plane] are Python floats: finite values
      (rationals), the infinities and [nan].  The coordinates of a
      bounding box are finite; the only float operations of the program
      that round are the three subtractions of [compute_dimensions]:
      they are the oracle [float_sub].
    - [open(path, 'a')] fails in the model for one reason, a directory
      that does not exist; permissions are outside the model.
    - [Bnd_Box.Get] raises on a void box; the box of a solid whose
      section has an edge is not void.
    - The kernel calls that can fail in the model are the reader and the
      writer (by their status), [gp_Pnt] and [gp_Dir] (by their
      arguments), the section (by [IsDone]) and [Bnd_Box.Get]; the other
      calls (the construction of the face, the display) are taken to
      return.
    - [os.path] is the POSIX flavour (posixpath). *)

From Stdlib Require Import ZArith QArith Qminmax Lqa Lia List Bool Ascii String.
Import ListNotations.

Open Scope string_scope.
Open Scope list_scope.

(* ================================================================== *)
(** ** Strings and POSIX paths (the parts of [os.path] the program uses) *)

Module PosixPath.

Definition sep : ascii := "/"%char.
Definition extsep : ascii := "."%char.

Definition is_empty (s : string) : bool :=
  match s with EmptyString => true | String _ _ => false end.

(** [str.rfind(c)]: index of the last occurrence of [c], or -1. *)
Fixpoint rfind_from (c : ascii) (s : string) (i last : Z) : Z :=
  match s with
  | EmptyString => last
  | String a r => rfind_from c r (i + 1) (if Ascii.eqb a c then i else last)
  end.

Definition rfind (c : ascii) (s : string) : Z := rfind_from c s 0 (-1).

(** [p[:i]] and [p[i:]] for an index [0 <= i]. *)
Definition slice_to (i : Z) (p : string) : string :=
  substring 0 (Z.to_nat i) p.

Definition slice_from (i : Z) (p : string) : string :=
  substring (Z.to_nat i) (String.length p - Z.to_nat i) p.

(** [p[i:j]] for indices [0 <= i]. *)
Definition slice (i j : Z) (p : string) : string :=
  substring (Z.to_nat i) (Z.to_nat j - Z.to_nat i) p.

(** [s == c * len(s)] *)
Fixpoint all_char (c : ascii) (s : string) : bool :=
  match s with
  | EmptyString => true
  | String a r => Ascii.eqb a c && all_char c r
  end.

(** [s.rstrip(c)] *)
Fixpoint rstrip (c : ascii) (s : string) : string :=
  match s with
  | EmptyString => EmptyString
  | String a r =>
      let r' := rstrip c r in
      if Ascii.eqb a c && is_empty r' then EmptyString else String a r'
  end.

Definition startswith (c : ascii) (s : string) : bool :=
  match s with
  | EmptyString => false
  | String a _ => Ascii.eqb a c
  end.

Fixpoint endswith (c : ascii) (s : string) : bool :=
  match s with
  | EmptyString => false
  | String a EmptyString => Ascii.eqb a c
  | String _ r => endswith c r
  end.

(** [posixpath.split] *)
Definition split (p : string) : string * string :=
  let i := (rfind sep p + 1)%Z in
  let head := slice_to i p in
  let tail := slice_from i p in
  let head :=
    if negb (is_empty head) && negb (all_char sep head)
    then rstrip sep head else head in
  (head, tail).

(** [posixpath.join] with one component after the first. *)
Definition join (a b : string) : string :=
  let path := a in
  if startswith sep b then b
  else if is_empty path || endswith sep path then (path ++ b)%string
  else (path ++ "/" ++ b)%string.

(** [posixpath.splitext]: the loop skipping the leading dots of the
    file name is the test that the characters between the last
    separator and the last dot are not all dots. *)
Definition splitext (p : string) : string * string :=
  let sepIndex := rfind sep p in
  let dotIndex := rfind extsep p in
  if (sepIndex <? dotIndex)%Z
     && negb (all_char extsep (slice (sepIndex + 1) dotIndex p))
  then (slice_to dotIndex p, slice_from dotIndex p)
  else (p, EmptyString).

End PosixPath.

(** The directory part of a path. *)
Definition dirname (p : string) : string := fst (PosixPath.split p).

(* ================================================================== *)
(** ** Kernel data *)

(** [TopAbs_ShapeEnum], in the kernel's order (most complex first). *)
Inductive TopAbs_ShapeEnum : Type :=
| TopAbs_COMPOUND | TopAbs_COMPSOLID | TopAbs_SOLID | TopAbs_SHELL
| TopAbs_FACE | TopAbs_WIRE | TopAbs_EDGE | TopAbs_VERTEX | TopAbs_SHAPE.

Definition TopAbs_eqb (a b : TopAbs_ShapeEnum) : bool :=
  match a, b with
  | TopAbs_COMPOUND, TopAbs_COMPOUND | TopAbs_COMPSOLID, TopAbs_COMPSOLID
  | TopAbs_SOLID, TopAbs_SOLID | TopAbs_SHELL, TopAbs_SHELL
  | TopAbs_FACE, TopAbs_FACE | TopAbs_WIRE, TopAbs_WIRE
  | TopAbs_EDGE, TopAbs_EDGE | TopAbs_VERTEX, TopAbs_VERTEX
  | TopAbs_SHAPE, TopAbs_SHAPE => true
  | _, _ => false
  end.

(** A (non null) [TopoDS_Shape]: the topology of a boundary representation,
    an entity of some type together with its direct sub-entities. *)
#[local] Unset Elimination Schemes.
Inductive TopoDS_Shape : Type :=
| Shape (ty : TopAbs_ShapeEnum) (subs : list TopoDS_Shape).
#[local] Set Elimination Schemes.



(** [TopExp_Explorer(S, ToFind)]: the entities of type [ToFind] the
    explorer visits, depth first; an entity of the searched type is
    visited and not searched further. *)
Fixpoint TopExp_Explorer (S : TopoDS_Shape) (ToFind : TopAbs_ShapeEnum)
  : list TopoDS_Shape :=
  match S with
  | Shape ty subs =>
      if TopAbs_eqb ty ToFind then [S]
      else flat_map (fun c => TopExp_Explorer c ToFind) subs
  end.

(** [explorer.More()] *)
Definition More (explorer : list TopoDS_Shape) : bool :=
  match explorer with [] => false | _ :: _ => true end.

(** A Python float, as [float()] gives it to [argparse]: a finite value
    (a rational), an infinity or [nan]. *)
Inductive float : Type :=
| Finite (q : Q)
| inf
| neg_inf
| nan.

Coercion Finite : Q >-> float.

Record gp_Pnt : Type := mk_gp_Pnt { pnt_X : float; pnt_Y : float; pnt_Z : float }.

(** A direction; the kernel normalises the vector, the model keeps the
    coordinates it was built from. *)
Record gp_Dir : Type := mk_gp_Dir { dir_X : float; dir_Y : float; dir_Z : float }.

Record gp_Pln : Type := mk_gp_Pln { pln_Location : gp_Pnt; pln_Axis : gp_Dir }.

(** The face [BRepBuilderAPI_MakeFace(plane, UMin, UMax, VMin, VMax)]. *)
Record TopoDS_Face : Type := mk_Face
  { face_plane : gp_Pln; UMin : Q; UMax : Q; VMin : Q; VMax : Q }.

(** What a display shows. *)
Inductive displayed : Type :=
| ShownShape (s : TopoDS_Shape)
| ShownFace (f : TopoDS_Face).

Definition Display : Type := list displayed.

(* ================================================================== *)
(** ** Events, exceptions and the monad *)

Inductive kernel_call : Type :=
| K_STEPControl_Reader
| K_ReadFile (step_filename : string)
| K_TransferRoots
| K_OneShape
| K_IsNull
| K_gp_Pnt_origin
| K_gp_Pnt (x y z : float)
| K_gp_Dir_X
| K_gp_Dir (x y z : float)
| K_gp_Pln (point : gp_Pnt) (normal : gp_Dir)
| K_BRepAlgoAPI_Section (shape : TopoDS_Shape) (plane : gp_Pln) (PerformNow : bool)
| K_ComputePCurveOn1 (b : bool)
| K_Approximation (b : bool)
| K_Build
| K_IsDone
| K_Section_Shape
| K_TopExp_Explorer (S : TopoDS_Shape) (ToFind : TopAbs_ShapeEnum)
| K_More
| K_Bnd_Box
| K_brepbndlib_Add (shape : TopoDS_Shape)
| K_Bnd_Box_Get
| K_MakeFace (plane : gp_Pln) (umin umax vmin vmax : Q)
| K_Face
| K_init_display
| K_DisplayShape (d : displayed)
| K_FitAll
| K_Repaint
| K_ExportToImage (output : string)
| K_STEPControl_Writer
| K_Transfer (shape : TopoDS_Shape)
| K_Write (output_file : string).

Inductive event : Type :=
| EvIsFile (path : string)            (* os.path.isfile(path) *)
| EvRedirect (logfile_path : string)  (* log opened for appending, output redirected *)
| EvRestore (logfile_path : string)   (* output restored, log closed *)
| EvKernel (c : kernel_call)
| EvPrint (msg : string).             (* print(...) *)

Inductive exn : Type :=
| OSError (msg : string)
| FileNotFoundError (msg : string)
| SystemExit (code : Z)
| ArgumentTypeError (msg : string)
| RuntimeError (msg : string)
| TypeError (msg : string)
| Standard_ConstructionError (msg : string).

Inductive result (A : Type) : Type :=
| Ok (a : A)
| Raise (e : exn).

Arguments Ok {A} a.
Arguments Raise {A} e.

Definition history : Type := list event.

Definition M (A : Type) : Type := history -> result A * history.

Definition ret {A} (a : A) : M A := fun h => (Ok a, h).

Definition raise {A} (e : exn) : M A := fun h => (Raise e, h).

Definition bind {A B} (m : M A) (k : A -> M B) : M B :=
  fun h =>
    match m h with
    | (Ok a, h') => k a h'
    | (Raise e, h') => (Raise e, h')
    end.

Definition emit (e : event) : M unit := fun h => (Ok tt, h ++ [e]).

Definition call (c : kernel_call) : M unit := emit (EvKernel c).

Definition print (msg : string) : M unit := emit (EvPrint msg).

Declare Scope prog_scope.
Delimit Scope prog_scope with prog.

Notation "x <- c1 ;; c2" := (bind c1 (fun x => c2))
  (at level 61, c1 at next level, right associativity) : prog_scope.
Notation "' pat <- c1 ;; c2" := (bind c1 (fun x => match x with pat => c2 end))
  (at level 61, pat pattern, c1 at next level, right associativity) : prog_scope.
Notation "c1 ;; c2" := (bind c1 (fun _ => c2))
  (at level 61, right associativity) : prog_scope.

Open Scope prog_scope.

(** The oracle: what the platform and the kernel answer, and what the
    properties rely on about these answers. *)
Record Env : Type := mk_Env
  { (* os.path.isfile(path) *)
    os_path_isfile : string -> bool;
    (* the directory part of a path (the empty part is the current
       directory) names an existing directory: what open(path, 'a')
       needs to succeed *)
    directory_exists : string -> bool;
    (* STEPControl_Reader.ReadFile: IFSelect_ReturnStatus, 1 is RetDone *)
    ReadFile : string -> Z;
    (* STEPControl_Reader.TransferRoots: number of roots transferred *)
    TransferRoots : string -> Z;
    (* STEPControl_Reader.OneShape: None is the null shape *)
    OneShape : string -> option TopoDS_Shape;
    (* gp_Dir(x, y, z) raises Standard_ConstructionError: the norm of the
       vector, computed in floating point, is not above the resolution *)
    gp_Dir_raises : float -> float -> float -> bool;
    (* BRepAlgoAPI_Section: IsDone() and Shape() after Build() *)
    Section_IsDone : TopoDS_Shape -> gp_Pln -> bool;
    Section_Shape : TopoDS_Shape -> gp_Pln -> TopoDS_Shape;
    (* Bnd_Box.IsVoid() after brepbndlib.Add(shape, bbox): nothing of the
       shape has been added to the box; Get() then raises
       Standard_ConstructionError *)
    Bnd_Box_IsVoid : TopoDS_Shape -> bool;
    (* what Bnd_Box.Get() returns after brepbndlib.Add(shape, bbox), when
       the box is not void *)
    Bnd_Box_Get : TopoDS_Shape -> Q * Q * Q * Q * Q * Q;
    (* a - b on Python floats: the difference, rounded *)
    float_sub : Q -> Q -> Q;
    (* STEPControl_Writer.Write: IFSelect_ReturnStatus, 1 is RetDone *)
    Write : TopoDS_Shape -> string -> Z;
    (* a file is in a directory that exists *)
    isfile_in_directory :
      forall p, os_path_isfile p = true -> directory_exists (dirname p) = true;
    (* only a file in a directory that exists is read with success *)
    ReadFile_in_directory :
      forall p, ReadFile p = 1%Z -> directory_exists (dirname p) = true;
    (* only in a directory that exists is a file written with success *)
    Write_in_directory :
      forall s p, Write s p = 1%Z -> directory_exists (dirname p) = true;
    (* the kernel rejects the zero vector *)
    gp_Dir_zero :
      forall x y z : Q,
        x == 0 -> y == 0 -> z == 0 -> gp_Dir_raises x y z = true;
    (* a shape whose section by a plane has an edge has geometry: its
       bounding box is not void *)
    section_not_void :
      forall shape plane,
        More (TopExp_Explorer (Section_Shape shape plane) TopAbs_EDGE) = true ->
        Bnd_Box_IsVoid shape = false;
    (* rounding keeps the sign of a difference *)
    float_sub_sign : forall a b, a <= b -> 0 <= float_sub b a }.

(* ================================================================== *)
(** ** common_lib.py *)

Module common_lib.

(** [output_file_path(input_file, filename)] *)
Definition output_file_path (input_file filename : string) : string :=
  let '(root, file) := PosixPath.split input_file in
  let output_file := PosixPath.join root filename in
  output_file.

(** [check_file(path)] *)
Definition check_file (env : Env) (path : string) : M string :=
  emit (EvIsFile path) ;;
  if negb (os_path_isfile env path)
  then raise (OSError ("File does not exist: " ++ path)%string)
  else ret path.

(** [with redirect_output(logfile_path): body].  The log is opened for
    appending; when [open] fails (the directory of the log does not
    exist) its exception leaves the context manager before anything is
    redirected and before the body runs.  Otherwise the log receives what
    the body writes to stdout and stderr, and the [finally] clause
    restores the streams however the body ends. *)
Definition redirect_output {A} (env : Env) (logfile_path : string) (body : M A)
  : M A :=
  fun h =>
    if directory_exists env (dirname logfile_path)
    then
      let '(r, h') := body (h ++ [EvRedirect logfile_path]) in
      (r, h' ++ [EvRestore logfile_path])
    else
      (Raise (FileNotFoundError
                ("[Errno 2] No such file or directory: '" ++ logfile_path ++ "'")%string),
       h).

End common_lib.

(* ================================================================== *)
(** ** step_file_lib.py *)

Module step_file_lib.

Definition log_file : string := "lib_occ.log".

(** [read_step_geometry(step_filename)] *)
Definition read_step_geometry (env : Env) (step_filename : string)
  : M TopoDS_Shape :=
  let output_log := common_lib.output_file_path step_filename log_file in
  status <- common_lib.redirect_output env output_log
              (call K_STEPControl_Reader ;;
               call (K_ReadFile step_filename) ;;
               ret (ReadFile env step_filename)) ;;
  if negb (status =? 1)%Z
  then raise (RuntimeError ("Failed to read STEP file: " ++ step_filename)%string)
  else
    print "STEP file has been read sucessfully" ;;
    ok <- common_lib.redirect_output env output_log
            (call K_TransferRoots ;;
             ret (TransferRoots env step_filename)) ;;
    if (ok =? 0)%Z
    then raise (RuntimeError "Failed to transfer STEP file contents.")
    else
      print "STEP file contents have been transfered sucessfully" ;;
      shape <- common_lib.redirect_output env output_log
                 (call K_OneShape ;;
                  ret (OneShape env step_filename)) ;;
      call K_IsNull ;;
      match shape with
      | None => raise (RuntimeError "STEP file contains no geometry.")
      | Some shape => ret shape
      end.

(** [write_step_geometry(shape, output_file)] *)
Definition write_step_geometry (env : Env) (shape : TopoDS_Shape)
           (output_file : string) : M Z :=
  let output_log := common_lib.output_file_path output_file log_file in
  status <- common_lib.redirect_output env output_log
              (call K_STEPControl_Writer ;;
               call (K_Transfer shape) ;;
               call (K_Write output_file) ;;
               ret (Write env shape output_file)) ;;
  ret status.

(** [compute_dimensions(shape)] *)
Definition compute_dimensions (env : Env) (shape : TopoDS_Shape)
  : M (Q * Q * Q) :=
  call K_Bnd_Box ;;
  call (K_brepbndlib_Add shape) ;;
  call K_Bnd_Box_Get ;;
  if Bnd_Box_IsVoid env shape
  then raise (Standard_ConstructionError "Bnd_Box is void")
  else
    let '(xmin, ymin, zmin, xmax, ymax, zmax) := Bnd_Box_Get env shape in
    let dx := float_sub env xmax xmin in
    let dy := float_sub env ymax ymin in
    let dz := float_sub env zmax zmin in
    ret (dx, dy, dz).

(** [gp_Pnt] on the unpacked list: three coordinates; without argument the
    constructor gives the origin; any other count is a [TypeError] of the
    call. *)
Definition make_gp_Pnt (coords : list float) : M gp_Pnt :=
  match coords with
  | [] => call K_gp_Pnt_origin ;; ret (mk_gp_Pnt 0 0 0)
  | [x; y; z] => call (K_gp_Pnt x y z) ;; ret (mk_gp_Pnt x y z)
  | _ => raise (TypeError "gp_Pnt: wrong number of arguments")
  end.

(** [gp_Dir] on the unpacked list: on three coordinates the kernel's constructor
    raises [Standard_ConstructionError] when it finds the norm of the
    vector null; without argument it gives the direction of the X axis;
    any other count is a [TypeError] of the call. *)
Definition make_gp_Dir (env : Env) (coords : list float) : M gp_Dir :=
  match coords with
  | [] => call K_gp_Dir_X ;; ret (mk_gp_Dir 1 0 0)
  | [x; y; z] =>
      call (K_gp_Dir x y z) ;;
      if gp_Dir_raises env x y z
      then raise (Standard_ConstructionError
                    "gp_Dir() - input vector has zero norm")
      else ret (mk_gp_Dir x y z)
  | _ => raise (TypeError "gp_Dir: wrong number of arguments")
  end.

(** [create_plane_point_normal(plane_point, plane_normal)] *)
Definition create_plane_point_normal (env : Env)
           (plane_point plane_normal : list float) : M gp_Pln :=
  point <- make_gp_Pnt plane_point ;;
  normal <- make_gp_Dir env plane_normal ;;
  call (K_gp_Pln point normal) ;;
  let plane := mk_gp_Pln point normal in
  ret plane.

(** [find_intersection(step_filename, plane_point, plane_normal)] *)
Definition find_intersection (env : Env) (step_filename : string)
           (plane_point plane_normal : list float)
  : M (TopoDS_Shape * gp_Pln * TopoDS_Shape * bool) :=
  let result := false in
  shape <- read_step_geometry env step_filename ;;
  plane <- create_plane_point_normal env plane_point plane_normal ;;
  let output_log := common_lib.output_file_path step_filename log_file in
  common_lib.redirect_output env output_log
    (call (K_BRepAlgoAPI_Section shape plane true) ;;
     call (K_ComputePCurveOn1 true) ;;
     call (K_Approximation true) ;;
     call K_Build) ;;
  call K_IsDone ;;
  if negb (Section_IsDone env shape plane)
  then raise (RuntimeError
                "Failed to compute intersection between plane and geometry.")
  else
    print "Computation of intersection finished sucessfully" ;;
    '(result_shape, has_edges) <-
       common_lib.redirect_output env output_log
         (call K_Section_Shape ;;
          let result_shape := Section_Shape env shape plane in
          call (K_TopExp_Explorer result_shape TopAbs_EDGE) ;;
          let explorer := TopExp_Explorer result_shape TopAbs_EDGE in
          call K_More ;;
          let has_edges := More explorer in
          ret (result_shape, has_edges)) ;;
    let result := if has_edges : bool then true else result in
    ret (shape, plane, result_shape, result).

(** [plot_geometry(display, output)] *)
Definition plot_geometry (display : Display) (output : string) : M unit :=
  call K_FitAll ;;
  call K_Repaint ;;
  call (K_ExportToImage output) ;;
  ret tt.

(** [create_face(plane, dimension)] *)
Definition create_face (plane : gp_Pln) (dimension : Q) : M TopoDS_Face :=
  call (K_MakeFace plane (- dimension) dimension (- dimension) dimension) ;;
  call K_Face ;;
  let face := mk_Face plane (- dimension) dimension (- dimension) dimension in
  ret face.

(** [combine_geometry_plane(shape, plane, dimension)] *)
Definition combine_geometry_plane (shape : TopoDS_Shape) (plane : gp_Pln)
           (dimension : Q) : M Display :=
  face <- create_face plane dimension ;;
  call K_init_display ;;
  let display : Display := [] in
  call (K_DisplayShape (ShownShape shape)) ;;
  let display := display ++ [ShownShape shape] in
  call (K_DisplayShape (ShownFace face)) ;;
  let display := display ++ [ShownFace face] in
  ret display.

End step_file_lib.

(* ================================================================== *)
(** ** intersector.py *)

Module intersector.

(** The command line, as [argparse] sees it.  [--in-step] is a path.
    [in_plane] is the list of floats [argparse] converts the values of
    [--in-plane] to; it is empty when [argparse] refuses the option (no
    value though [nargs='+'], the option absent though required, a token
    that is not a float or that it takes for an option), in which case
    [refused_first] tells whether it refuses before it converts
    [--in-step] (it handles the options in the order of the command
    line).  [--out-step] is optional. *)
Record CommandLine : Type := mk_CommandLine
  { in_step : string;
    in_plane : list float;
    refused_first : bool;
    out_step : option string }.

Record Namespace : Type := mk_Namespace
  { args_in_step : string;
    args_in_plane : list float;
    args_out_step : string }.

(** The list of floats given to [--in-plane]. *)
Definition plane_values (argv : CommandLine) : list float := in_plane argv.

(** The value of [--out-step], with its default. *)
Definition output_filename (argv : CommandLine) : string :=
  match out_step argv with
  | Some f => f
  | None => "intersection.stp"
  end.

(** [argparse] on [--in-plane]: a refused option is a usage error,
    [parser.error], which ends the program with [SystemExit(2)]. *)
Definition parse_in_plane (argv : CommandLine) : M (list float) :=
  match plane_values argv with
  | [] => raise (SystemExit 2)
  | values => ret values
  end.

(** [parser.parse_args()]: [--in-step] goes through its [type] function
    [common_lib.check_file], before or after [--in-plane] is handled;
    [--out-step] has a default. *)
Definition parse_args (env : Env) (argv : CommandLine) : M Namespace :=
  if refused_first argv
  then
    values <- parse_in_plane argv ;;
    step <- common_lib.check_file env (in_step argv) ;;
    ret {| args_in_step := step;
           args_in_plane := values;
           args_out_step := output_filename argv |}
  else
    step <- common_lib.check_file env (in_step argv) ;;
    values <- parse_in_plane argv ;;
    ret {| args_in_step := step;
           args_in_plane := values;
           args_out_step := output_filename argv |}.

(** [a > b] on numbers. *)
Definition Qgtb (a b : Q) : bool := negb (Qle_bool a b).

(** Python's [max(a, b, c)]: the first of the largest items. *)
Definition max3 (a b c : Q) : Q :=
  let maxitem := a in
  let maxitem := if Qgtb b maxitem then b else maxitem in
  let maxitem := if Qgtb c maxitem then c else maxitem in
  maxitem.

Definition in_plane_error : string :=
  "Exactly 6 numbers should be provided with argument --in-plane, the first 3 should be the point coordinates x, y, z and the rest 3 should be the normal directions nx, ny, nz".

(** [main()] *)
Definition main (env : Env) (argv : CommandLine) : M unit :=
  args <- parse_args env argv ;;
  let step_file := args_in_step args in
  let output_filename := args_out_step args in
  if negb (Nat.eqb (List.length (args_in_plane args)) 6)
  then raise (ArgumentTypeError in_plane_error)
  else
    let plane_point := firstn 3 (args_in_plane args) in
    let plane_normal := skipn 3 (args_in_plane args) in
    let output_log := common_lib.output_file_path step_file "lib_occ.log" in
    '(shape, plane, result_shape, result) <-
       step_file_lib.find_intersection env step_file plane_point plane_normal ;;
    if result : bool then
      output_png <-
        common_lib.redirect_output env output_log
          ('(dx, dy, dz) <- step_file_lib.compute_dimensions env shape ;;
           let dimension := max3 dx dy dz in
           display <- step_file_lib.combine_geometry_plane shape plane dimension ;;
           let '(root, name) := PosixPath.split step_file in
           let '(name, ext) := PosixPath.splitext name in
           let output_png :=
             common_lib.output_file_path step_file (name ++ ".png")%string in
           step_file_lib.plot_geometry display output_png ;;
           ret output_png) ;;
      let output_file := common_lib.output_file_path step_file output_filename in
      status <- step_file_lib.write_step_geometry env result_shape output_file ;;
      if negb (status =? 1)%Z
      then raise (RuntimeError
                    ("Intersection found but failed to write STEP file: "
                       ++ output_file)%string)
      else
        print ("Intersection found and written to: " ++ output_filename)%string ;;
        print ("A png file with the geometry and the plane has been written to: "
                 ++ output_png)%string ;;
        ret tt
    else
      print "No intersection found" ;;
      ret tt.

End intersector.

(* ================================================================== *)
(** ** Observations on a history *)

Definition kernel_calls (h : history) : list kernel_call :=
  flat_map (fun e => match e with EvKernel c => [c] | _ => [] end) h.

(** The logs opened (for appending) by [redirect_output]. *)
Definition opened_logs (h : history) : list string :=
  flat_map (fun e => match e with EvRedirect p => [p] | _ => [] end) h.

(** The images the display was asked to export. *)
Definition exported_images (h : history) : list string :=
  flat_map (fun e => match e with
                     | EvKernel (K_ExportToImage p) => [p]
                     | _ => []
                     end) h.

(** The STEP files the kernel was asked to write. *)
Definition step_writes (h : history) : list string :=
  flat_map (fun e => match e with
                     | EvKernel (K_Write p) => [p]
                     | _ => []
                     end) h.

(** The faces the kernel was asked to build. *)
Definition faces_made (h : history) : list TopoDS_Face :=
  flat_map (fun e => match e with
                     | EvKernel (K_MakeFace pl umin umax vmin vmax) =>
                         [mk_Face pl umin umax vmin vmax]
                     | _ => []
                     end) h.

Definition printed (h : history) : list string :=
  flat_map (fun e => match e with EvPrint m => [m] | _ => [] end) h.

(** The paths a history opens or writes: the logs opened for appending,
    the images exported, the STEP files written. *)
Definition touched_paths (h : history) : list string :=
  flat_map (fun e => match e with
                     | EvRedirect p => [p]
                     | EvKernel (K_ExportToImage p) => [p]
                     | EvKernel (K_Write p) => [p]
                     | _ => []
                     end) h.

(** Events that are neither the construction of a face, nor the export
    of an image, nor the writing of a STEP file. *)
Definition quiet (e : event) : Prop :=
  match e with
  | EvKernel (K_MakeFace _ _ _ _ _) => False
  | EvKernel (K_ExportToImage _) => False
  | EvKernel (K_Write _) => False
  | _ => True
  end.

(** The three spans of the bounding box of a solid: what
    [compute_dimensions] returns when the box is not void. *)
Definition spans (env : Env) (shape : TopoDS_Shape) : Q * Q * Q :=
  let '(xmin, ymin, zmin, xmax, ymax, zmax) := Bnd_Box_Get env shape in
  (float_sub env xmax xmin, float_sub env ymax ymin, float_sub env zmax zmin).

(** The extent [main] derives from a solid: [max(dx, dy, dz)]. *)
Definition extent (env : Env) (shape : TopoDS_Shape) : Q :=
  let '(dx, dy, dz) := spans env shape in
  intersector.max3 dx dy dz.

(** The image path [main] derives from the STEP path. *)
Definition png_path (step_file : string) : string :=
  let name := fst (PosixPath.splitext (snd (PosixPath.split step_file))) in
  common_lib.output_file_path step_file (name ++ ".png")%string.





(* ================================================================== *)
(** ** A concrete platform and kernel, for running the model *)

Module Demo.

Definition vertex : TopoDS_Shape := Shape TopAbs_VERTEX [].
Definition edge : TopoDS_Shape := Shape TopAbs_EDGE [vertex; vertex].
Definition wire : TopoDS_Shape := Shape TopAbs_WIRE [edge].
Definition face : TopoDS_Shape := Shape TopAbs_FACE [wire].

(** The solid of [/data/cube.stp]: a unit cube centred at the origin
    (its topology cut down to one face). *)
Definition cube : TopoDS_Shape :=
  Shape TopAbs_SOLID [Shape TopAbs_SHELL [face]].

(** The solid of [/data/box.stp]: a compound, of spans 1, 2 and 3. *)
Definition box : TopoDS_Shape :=
  Shape TopAbs_COMPOUND [cube].


(** A section made of four edges. *)
Definition square_section : TopoDS_Shape :=
  Shape TopAbs_COMPOUND [edge; edge; edge; edge].

(** A section with no entity at all. *)
Definition empty_section : TopoDS_Shape := Shape TopAbs_COMPOUND [].

(** A result with a face and vertices and no edge. *)
Definition edgeless_section : TopoDS_Shape :=
  Shape TopAbs_COMPOUND [Shape TopAbs_FACE [vertex; vertex]; vertex].

(** The files of the demo platform. *)
Definition isfile (p : string) : bool :=
  String.eqb p "/data/cube.stp" || String.eqb p "/data/box.stp"
  || String.eqb p "/data/broken.stp".

(** Its directories; there is no [/nodir]. *)
Definition isdir (d : string) : bool :=
  String.eqb d "/data" || String.eqb d "/tmp/out".

(** [/data/broken.stp] is read with status 2, a path that names no file
    with status 0. *)
Definition read_status (p : string) : Z :=
  if String.eqb p "/data/broken.stp" then 2%Z
  else if isfile p then 1%Z else 0%Z.

(** The writer fails on [/tmp/out/locked.stp] (status 3, RetFail), and
    in a directory that does not exist. *)
Definition write_status (p : string) : Z :=
  if String.eqb p "/tmp/out/locked.stp" then 3%Z
  else if isdir (dirname p) then 1%Z else 3%Z.

Definition isfile_isdir (p : string) :
  isfile p = true -> isdir (dirname p) = true.
Proof.
  unfold isfile. intros H.
  repeat (apply orb_true_iff in H; destruct H as [H|H]);
    apply String.eqb_eq in H; subst p; reflexivity.
Qed.

Definition read_status_isdir (p : string) :
  read_status p = 1%Z -> isdir (dirname p) = true.
Proof.
  unfold read_status. destruct (String.eqb p "/data/broken.stp"); [discriminate|].
  destruct (isfile p) eqn:Hp; [|discriminate]. intros _. now apply isfile_isdir.
Qed.

Definition write_status_isdir (s : TopoDS_Shape) (p : string) :
  write_status p = 1%Z -> isdir (dirname p) = true.
Proof.
  unfold write_status. destruct (String.eqb p "/tmp/out/locked.stp");
    [discriminate|].
  now destruct (isdir (dirname p)).
Qed.

Definition zero_vector (x y z : float) : bool :=
  match x, y, z with
  | Finite x, Finite y, Finite z => Qeq_bool x 0 && Qeq_bool y 0 && Qeq_bool z 0
  | _, _, _ => false
  end.

Definition zero_vector_zero (x y z : Q) :
  x == 0 -> y == 0 -> z == 0 -> zero_vector x y z = true.
Proof.
  intros Hx Hy Hz. unfold zero_vector.
  apply Qeq_bool_iff in Hx, Hy, Hz. now rewrite Hx, Hy, Hz.
Qed.

Definition Qminus_sign (a b : Q) : a <= b -> 0 <= b - a.
Proof. intros H. lra. Qed.

(** The demo platform: its coordinates are floats whose differences are
    exact, and its kernel rejects the zero vector only. *)
Definition env : Env :=
  {| os_path_isfile := isfile;
     directory_exists := isdir;
     ReadFile := read_status;
     TransferRoots := fun _ => 1%Z;
     OneShape := fun p =>
       if String.eqb p "/data/box.stp" then Some box else Some cube;
     gp_Dir_raises := zero_vector;
     Section_IsDone := fun _ _ => true;
     Section_Shape := fun _ plane =>
       match pnt_Z (pln_Location plane) with
       | Finite z =>
           if Qle_bool (-1 # 2) z && Qle_bool z (1 # 2) then
             if Qeq_bool z (1 # 2) then edgeless_section else square_section
           else empty_section
       | _ => empty_section
       end;
     Bnd_Box_IsVoid := fun _ => false;
     Bnd_Box_Get := fun s =>
       match s with
       | Shape TopAbs_COMPOUND _ => (0, 0, 0, 1, 2, 3)
       | Shape TopAbs_COMPSOLID _ => (0, 0, 0, 2, 4, 6)
       | _ => (-1 # 2, -1 # 2, -1 # 2, 1 # 2, 1 # 2, 1 # 2)
       end;
     float_sub := Qminus;
     Write := fun _ p => write_status p;
     isfile_in_directory := isfile_isdir;
     ReadFile_in_directory := read_status_isdir;
     Write_in_directory := write_status_isdir;
     gp_Dir_zero := zero_vector_zero;
     section_not_void := fun _ _ _ => eq_refl;
     float_sub_sign := Qminus_sign |}.

(** A command line whose [--in-plane] has at least one value. *)
Definition argv (step : string) (plane : Q * list Q) (out : option string)
  : intersector.CommandLine :=
  intersector.mk_CommandLine step (map Finite (fst plane :: snd plane)) false out.

(** Scenario A: the plane z = 0 through the cube. *)
Definition argv_A : intersector.CommandLine :=
  argv "/data/cube.stp" (0, [0; 0; 0; 0; 1]) None.

(** Scenario B: a plane that misses the cube. *)
Definition argv_B : intersector.CommandLine :=
  argv "/data/cube.stp" (0, [0; 10; 0; 0; 1]) None.

(** A plane whose normal is the zero vector. *)
Definition argv_zero_normal : intersector.CommandLine :=
  argv "/data/cube.stp" (0, [0; 0; 0; 0; 0]) None.

(** Five numbers for the plane and a STEP path that names no file. *)
Definition argv_five_missing : intersector.CommandLine :=
  argv "/data/missing.stp" (0, [0; 0; 0; 1]) None.

(** Five numbers for the plane and an existing STEP file. *)
Definition argv_five : intersector.CommandLine :=
  argv "/data/cube.stp" (0, [0; 0; 0; 1]) None.

(** The section is written to an absolute path outside [/data]. *)
Definition argv_abs_out : intersector.CommandLine :=
  argv "/data/cube.stp" (0, [0; 0; 0; 0; 1]) (Some "/tmp/out/section.stp").

(** The write of the section fails. *)
Definition argv_write_fails : intersector.CommandLine :=
  argv "/data/cube.stp" (0, [0; 0; 0; 0; 1]) (Some "/tmp/out/locked.stp").

(** The section is to be written in a directory that does not exist. *)
Definition argv_no_out_dir : intersector.CommandLine :=
  argv "/data/cube.stp" (0, [0; 0; 0; 0; 1]) (Some "/nodir/section.stp").

(** The section is to be written over the image. *)
Definition argv_out_is_image : intersector.CommandLine :=
  argv "/data/cube.stp" (0, [0; 0; 0; 0; 1]) (Some "cube.png").

(** [--in-plane] without value, before a [--in-step] that names no file. *)
Definition argv_no_plane_first : intersector.CommandLine :=
  intersector.mk_CommandLine "/data/missing.stp" [] true None.

(** [--in-plane] without value, after [--in-step]. *)
Definition argv_no_plane : intersector.CommandLine :=
  intersector.mk_CommandLine "/data/cube.stp" [] false None.

End Demo.


(* ================================================================== *)
(** ** The events of the stages of [main] *)

(** The rendering stage (the [with] block of [main]): bounding box, patch
    of half-size [extent], display, export of the image. *)
Definition render_events (env : Env) (step_file : string)
           (shape : TopoDS_Shape) (plane : gp_Pln) : list event :=
  let d := extent env shape in
  let log := common_lib.output_file_path step_file "lib_occ.log" in
  [ EvRedirect log;
    EvKernel K_Bnd_Box;
    EvKernel (K_brepbndlib_Add shape);
    EvKernel K_Bnd_Box_Get;
    EvKernel (K_MakeFace plane (- d) d (- d) d);
    EvKernel K_Face;
    EvKernel K_init_display;
    EvKernel (K_DisplayShape (ShownShape shape));
    EvKernel (K_DisplayShape (ShownFace (mk_Face plane (- d) d (- d) d)));
    EvKernel K_FitAll;
    EvKernel K_Repaint;
    EvKernel (K_ExportToImage (png_path step_file));
    EvRestore log ].

(** The writing stage ([write_step_geometry]). *)
Definition write_events (result_shape : TopoDS_Shape) (output_file : string)
  : list event :=
  let log := common_lib.output_file_path output_file step_file_lib.log_file in
  [ EvRedirect log;
    EvKernel K_STEPControl_Writer;
    EvKernel (K_Transfer result_shape);
    EvKernel (K_Write output_file);
    EvRestore log ].

(* ================================================================== *)
(** ** Computations that only append to the history *)

(** [traces P m]: whatever the history [m] starts from, it gives the same
    result and appends the same events, all of which satisfy [P]. *)
Definition traces {A} (P : event -> Prop) (m : M A) : Prop :=
  exists r evs, Forall P evs /\ forall h, m h = (r, h ++ evs).

(* ================================================================== *)
(** ** Further observations *)

From Stdlib Require Import Permutation.

(** Where standard output goes along a history: [None] is the terminal,
    [Some log] a log opened by [redirect_output].  [redirect_scope]
    follows a history and fails ([None]) when a redirection is opened
    inside another one, when a restore does not close the redirection
    that is open, or when [print] is called while output is redirected. *)
Fixpoint redirect_scope (current : option string) (h : history)
  : option (option string) :=
  match h with
  | [] => Some current
  | EvRedirect log :: h' =>
      match current with
      | None => redirect_scope (Some log) h'
      | Some _ => None
      end
  | EvRestore log :: h' =>
      match current with
      | Some log' => if String.eqb log log' then redirect_scope None h' else None
      | None => None
      end
  | EvPrint _ :: h' =>
      match current with
      | None => redirect_scope None h'
      | Some _ => None
      end
  | _ :: h' => redirect_scope current h'
  end.

(** [scoped m]: [m] appends the same events whatever the history, and
    these events start and end on the terminal. *)
Definition scoped {A} (m : M A) : Prop :=
  exists r evs,
    redirect_scope None evs = Some None /\ forall h, m h = (r, h ++ evs).

(** Events that are neither a redirection, nor a restore, nor a print. *)
Definition plain (e : event) : Prop :=
  match e with
  | EvRedirect _ | EvRestore _ | EvPrint _ => False
  | _ => True
  end.

(** Events whose redirections, if any, go to the log [log]. *)
Definition logs_to (log : string) (e : event) : Prop :=
  match e with
  | EvRedirect p | EvRestore p => p = log
  | _ => True
  end.

(** [c in s] for a character. *)
Fixpoint contains (c : ascii) (s : string) : bool :=
  match s with
  | EmptyString => false
  | String a r => Ascii.eqb a c || contains c r
  end.

(** The bounding box of a solid has its minimum corner below its
    maximum corner. *)
Definition box_ordered (env : Env) (shape : TopoDS_Shape) : Prop :=
  let '(xmin, ymin, zmin, xmax, ymax, zmax) := Bnd_Box_Get env shape in
  xmin <= xmax /\ ymin <= ymax /\ zmin <= zmax.

(** The kernel calls of a successful [find_intersection]. *)
Definition find_intersection_calls (step_filename : string)
           (shape : TopoDS_Shape) (plane : gp_Pln) (result_shape : TopoDS_Shape)
  : list kernel_call :=
  [ K_STEPControl_Reader; K_ReadFile step_filename; K_TransferRoots; K_OneShape;
    K_IsNull;
    K_gp_Pnt (pnt_X (pln_Location plane)) (pnt_Y (pln_Location plane))
      (pnt_Z (pln_Location plane));
    K_gp_Dir (dir_X (pln_Axis plane)) (dir_Y (pln_Axis plane))
      (dir_Z (pln_Axis plane));
    K_gp_Pln (pln_Location plane) (pln_Axis plane);
    K_BRepAlgoAPI_Section shape plane true;
    K_ComputePCurveOn1 true; K_Approximation true; K_Build; K_IsDone;
    K_Section_Shape; K_TopExp_Explorer result_shape TopAbs_EDGE; K_More ].

(** Variants of the demo platform. *)
Module DemoVariants.

(** [ReadFile] succeeds and no root is transferred. *)
Definition env_no_roots : Env :=
  {| os_path_isfile := os_path_isfile Demo.env;
     directory_exists := directory_exists Demo.env;
     ReadFile := ReadFile Demo.env;
     TransferRoots := fun _ => 0%Z;
     OneShape := OneShape Demo.env;
     gp_Dir_raises := gp_Dir_raises Demo.env;
     Section_IsDone := Section_IsDone Demo.env;
     Section_Shape := Section_Shape Demo.env;
     Bnd_Box_IsVoid := Bnd_Box_IsVoid Demo.env;
     Bnd_Box_Get := Bnd_Box_Get Demo.env;
     float_sub := float_sub Demo.env;
     Write := Write Demo.env;
     isfile_in_directory := isfile_in_directory Demo.env;
     ReadFile_in_directory := ReadFile_in_directory Demo.env;
     Write_in_directory := Write_in_directory Demo.env;
     gp_Dir_zero := gp_Dir_zero Demo.env;
     section_not_void := fun _ _ _ => eq_refl;
     float_sub_sign := float_sub_sign Demo.env |}.

(** The transfer gives the null shape. *)
Definition env_null_shape : Env :=
  {| os_path_isfile := os_path_isfile Demo.env;
     directory_exists := directory_exists Demo.env;
     ReadFile := ReadFile Demo.env;
     TransferRoots := TransferRoots Demo.env;
     OneShape := fun _ => None;
     gp_Dir_raises := gp_Dir_raises Demo.env;
     Section_IsDone := Section_IsDone Demo.env;
     Section_Shape := Section_Shape Demo.env;
     Bnd_Box_IsVoid := Bnd_Box_IsVoid Demo.env;
     Bnd_Box_Get := Bnd_Box_Get Demo.env;
     float_sub := float_sub Demo.env;
     Write := Write Demo.env;
     isfile_in_directory := isfile_in_directory Demo.env;
     ReadFile_in_directory := ReadFile_in_directory Demo.env;
     Write_in_directory := Write_in_directory Demo.env;
     gp_Dir_zero := gp_Dir_zero Demo.env;
     section_not_void := fun _ _ _ => eq_refl;
     float_sub_sign := float_sub_sign Demo.env |}.

(** The section algorithm does not complete. *)
Definition env_section_fails : Env :=
  {| os_path_isfile := os_path_isfile Demo.env;
     directory_exists := directory_exists Demo.env;
     ReadFile := ReadFile Demo.env;
     TransferRoots := TransferRoots Demo.env;
     OneShape := OneShape Demo.env;
     gp_Dir_raises := gp_Dir_raises Demo.env;
     Section_IsDone := fun _ _ => false;
     Section_Shape := Section_Shape Demo.env;
     Bnd_Box_IsVoid := Bnd_Box_IsVoid Demo.env;
     Bnd_Box_Get := Bnd_Box_Get Demo.env;
     float_sub := float_sub Demo.env;
     Write := Write Demo.env;
     isfile_in_directory := isfile_in_directory Demo.env;
     ReadFile_in_directory := ReadFile_in_directory Demo.env;
     Write_in_directory := Write_in_directory Demo.env;
     gp_Dir_zero := gp_Dir_zero Demo.env;
     section_not_void := fun _ _ _ => eq_refl;
     float_sub_sign := float_sub_sign Demo.env |}.

(** The box of [/data/box.stp] turned: spans 3, 1 and 2. *)
Definition env_turned : Env :=
  {| os_path_isfile := os_path_isfile Demo.env;
     directory_exists := directory_exists Demo.env;
     ReadFile := ReadFile Demo.env;
     TransferRoots := TransferRoots Demo.env;
     OneShape := OneShape Demo.env;
     gp_Dir_raises := gp_Dir_raises Demo.env;
     Section_IsDone := Section_IsDone Demo.env;
     Section_Shape := Section_Shape Demo.env;
     Bnd_Box_IsVoid := Bnd_Box_IsVoid Demo.env;
     Bnd_Box_Get := fun _ => (0, 0, 0, 3, 1, 2);
     float_sub := float_sub Demo.env;
     Write := Write Demo.env;
     isfile_in_directory := isfile_in_directory Demo.env;
     ReadFile_in_directory := ReadFile_in_directory Demo.env;
     Write_in_directory := Write_in_directory Demo.env;
     gp_Dir_zero := gp_Dir_zero Demo.env;
     section_not_void := fun _ _ _ => eq_refl;
     float_sub_sign := float_sub_sign Demo.env |}.

End DemoVariants.

(** The heads [posixpath.split] returns: made of separators only
    (the empty string included), or not ending with a separator. *)
Definition is_head (root : string) : Prop :=
  PosixPath.all_char PosixPath.sep root = true
  \/ PosixPath.endswith PosixPath.sep root = false.

(** The name [main] gives to the image: the file name of the STEP path
    without its extension. *)
Definition stem (step_file : string) : string :=
  fst (PosixPath.splitext (snd (PosixPath.split step_file))).

(** The kernel calls made while output is on the terminal, that is
    outside every [redirect_output]; [redirected] tells whether a
    redirection is open at the start of the history. *)
Fixpoint unlogged_calls (redirected : bool) (h : history) : list kernel_call :=
  match h with
  | [] => []
  | EvRedirect _ :: h' => unlogged_calls true h'
  | EvRestore _ :: h' => unlogged_calls false h'
  | EvKernel c :: h' =>
      (if redirected then [] else [c]) ++ unlogged_calls redirected h'
  | _ :: h' => unlogged_calls redirected h'
  end.

(** Whether output is redirected. *)
Definition is_redirected (current : option string) : bool :=
  match current with Some _ => true | None => false end.

(** The constructors of the point, the direction and the plane, and the
    queries [IsNull] and [IsDone]. *)
Definition direct_call (c : kernel_call) : Prop :=
  match c with
  | K_IsNull | K_gp_Pnt_origin | K_gp_Pnt _ _ _ | K_gp_Dir_X | K_gp_Dir _ _ _
  | K_gp_Pln _ _ | K_IsDone => True
  | _ => False
  end.

(** [captured m]: [m] is [scoped] and its kernel calls outside the
    redirections are [direct_call]s. *)
Definition captured {A} (m : M A) : Prop :=
  exists r evs,
    redirect_scope None evs = Some None
    /\ Forall direct_call (unlogged_calls false evs)
    /\ forall h, m h = (r, h ++ evs).

(* ================================================================== *)
(** * Properties *)

Lemma traces_ret {A} P (a : A) : traces P (ret a).
Proof.
  exists (Ok a), []. split; [constructor|].
  intros h. unfold ret. now rewrite app_nil_r.
Qed.

Lemma traces_raise {A} P e : traces P (@raise A e).
Proof.
  exists (Raise e), []. split; [constructor|].
  intros h. unfold raise. now rewrite app_nil_r.
Qed.

Lemma traces_emit P e : P e -> traces P (emit e).
Proof.
  intros He. exists (Ok tt), [e]. split; [repeat constructor; exact He|].
  reflexivity.
Qed.

Lemma traces_bind {A B} P (m : M A) (k : A -> M B) :
  traces P m -> (forall a, traces P (k a)) -> traces P (bind m k).
Proof.
  intros (r & evs & Hevs & Hm) Hk.
  destruct r as [a|e].
  - destruct (Hk a) as (r2 & evs2 & Hevs2 & Hka).
    exists r2, (evs ++ evs2). split.
    + apply Forall_app; split; assumption.
    + intros h. unfold bind. rewrite Hm, Hka. now rewrite app_assoc.
  - exists (Raise e), evs. split; [assumption|].
    intros h. unfold bind. now rewrite Hm.
Qed.

Lemma traces_redirect {A} P env log (body : M A) :
  P (EvRedirect log) -> P (EvRestore log) -> traces P body ->
  traces P (common_lib.redirect_output env log body).
Proof.
  intros Hopen Hclose (r & evs & Hevs & Hbody).
  destruct (directory_exists env (dirname log)) eqn:Hdir.
  - exists r, (EvRedirect log :: evs ++ [EvRestore log]). split.
    + constructor; [assumption|].
      apply Forall_app; split; [assumption|]. repeat constructor. assumption.
    + intros h. unfold common_lib.redirect_output. rewrite Hdir, Hbody.
      f_equal. rewrite <- !app_assoc. reflexivity.
  - eexists _, []. split; [constructor|].
    intros h. unfold common_lib.redirect_output. rewrite Hdir, app_nil_r.
    reflexivity.
Qed.

(** A computation that [traces] is determined by its run from the empty
    history. *)
Lemma traces_frame {A} P (m : M A) :
  traces P m ->
  Forall P (snd (m [])) /\ forall h, m h = (fst (m []), h ++ snd (m [])).
Proof.
  intros (r & evs & Hevs & Hm).
  rewrite (Hm []). simpl. split; [assumption|exact Hm].
Qed.

(* ------------------------------------------------------------------ *)
(** ** Strings *)

Lemma substring_prefix (a b : string) :
  substring 0 (String.length a) (a ++ b) = a.
Proof.
  induction a as [|x a IH]; simpl.
  - now destruct b.
  - now rewrite IH.
Qed.

Lemma substring_all (s : string) : substring 0 (String.length s) s = s.
Proof. induction s as [|x s IH]; simpl; [reflexivity|now rewrite IH]. Qed.

Lemma substring_suffix (a b : string) n :
  substring (String.length a) n (a ++ b) = substring 0 n b.
Proof. induction a as [|x a IH]; simpl; [reflexivity|exact IH]. Qed.

Lemma length_append (a b : string) :
  String.length (a ++ b) = (String.length a + String.length b)%nat.
Proof. induction a as [|x a IH]; simpl; [reflexivity|now rewrite IH]. Qed.

Lemma contains_append c (a b : string) :
  contains c (a ++ b) = contains c a || contains c b.
Proof.
  induction a as [|x a IH]; simpl; [reflexivity|].
  now rewrite IH, orb_assoc.
Qed.

Lemma contains_substring c s n :
  contains c s = false -> contains c (substring 0 n s) = false.
Proof.
  revert n. induction s as [|x s IH]; intros n H.
  - now destruct n.
  - simpl in H. apply orb_false_iff in H. destruct H as [Hx Hs].
    destruct n; simpl; [reflexivity|]. now rewrite Hx, IH.
Qed.

Lemma startswith_contains c s :
  contains c s = false -> PosixPath.startswith c s = false.
Proof.
  destruct s as [|x s]; simpl; [reflexivity|].
  intros H. apply orb_false_iff in H. tauto.
Qed.

(** A string that contains [c] splits at the last [c]. *)
Lemma last_occurrence c s :
  contains c s = true ->
  exists a f, s = (a ++ String c f)%string /\ contains c f = false.
Proof.
  induction s as [|x s IH]; simpl; [discriminate|].
  destruct (contains c s) eqn:Hs.
  - intros _. destruct (IH eq_refl) as (a & f & -> & Hf).
    exists (String x a), f. split; [reflexivity|assumption].
  - rewrite orb_false_r. intros Hx. apply Ascii.eqb_eq in Hx. subst x.
    exists EmptyString, s. split; [reflexivity|assumption].
Qed.

Lemma rfind_from_absent c s i last :
  contains c s = false -> PosixPath.rfind_from c s i last = last.
Proof.
  revert i last. induction s as [|x s IH]; intros i last H; simpl;
    [reflexivity|].
  simpl in H. apply orb_false_iff in H. destruct H as [Hx Hs].
  rewrite Hx. now apply IH.
Qed.

Lemma rfind_from_last c a f i last :
  contains c f = false ->
  PosixPath.rfind_from c (a ++ String c f) i last
  = (i + Z.of_nat (String.length a))%Z.
Proof.
  intros Hf. revert i last.
  induction a as [|x a IH]; intros i last; simpl String.length.
  - simpl. rewrite Ascii.eqb_refl, (rfind_from_absent _ _ _ _ Hf). lia.
  - simpl append. simpl PosixPath.rfind_from. rewrite IH. lia.
Qed.

Lemma rfind_absent c s : contains c s = false -> PosixPath.rfind c s = (-1)%Z.
Proof. apply rfind_from_absent. Qed.

Lemma rfind_last c a f :
  contains c f = false ->
  PosixPath.rfind c (a ++ String c f) = Z.of_nat (String.length a).
Proof. intros Hf. unfold PosixPath.rfind. now rewrite rfind_from_last. Qed.

Lemma slice_to_prefix (a b : string) :
  PosixPath.slice_to (Z.of_nat (String.length a)) (a ++ b) = a.
Proof.
  unfold PosixPath.slice_to. rewrite Nat2Z.id. apply substring_prefix.
Qed.

Lemma slice_from_suffix (a b : string) :
  PosixPath.slice_from (Z.of_nat (String.length a)) (a ++ b) = b.
Proof.
  unfold PosixPath.slice_from. rewrite Nat2Z.id, substring_suffix, length_append.
  replace (String.length a + String.length b - String.length a)%nat
    with (String.length b) by lia.
  apply substring_all.
Qed.

Lemma append_assoc_char (a : string) c (f : string) :
  (a ++ String c f)%string = ((a ++ String c EmptyString) ++ f)%string.
Proof. induction a as [|x a IH]; simpl; [reflexivity|now rewrite IH]. Qed.

Lemma length_append_char (a : string) c :
  String.length (a ++ String c EmptyString) = S (String.length a).
Proof. rewrite length_append. simpl. lia. Qed.

Lemma endswith_append_char c a :
  PosixPath.endswith c (a ++ String c EmptyString) = true.
Proof.
  induction a as [|x a IH]; simpl; [apply Ascii.eqb_refl|].
  destruct (a ++ String c EmptyString)%string eqn:Ha; [|exact IH].
  destruct a; discriminate.
Qed.

Lemma endswith_inv c s :
  PosixPath.endswith c s = true ->
  exists a, s = (a ++ String c EmptyString)%string.
Proof.
  induction s as [|x s IH]; simpl; [discriminate|].
  destruct s as [|y s].
  - intros H. apply Ascii.eqb_eq in H. subst x. now exists EmptyString.
  - intros H. destruct (IH H) as [a Ha]. exists (String x a). simpl.
    now rewrite <- Ha.
Qed.

Lemma rstrip_no_end c s :
  PosixPath.endswith c s = false -> PosixPath.rstrip c s = s.
Proof.
  induction s as [|x s IH]; [reflexivity|].
  simpl. destruct s as [|y s].
  - intros H. simpl. now rewrite H.
  - intros H. rewrite (IH H). simpl. now rewrite andb_false_r.
Qed.

Lemma rstrip_append_char c s :
  PosixPath.rstrip c (s ++ String c EmptyString) = PosixPath.rstrip c s.
Proof.
  induction s as [|x s IH]; simpl.
  - now rewrite Ascii.eqb_refl.
  - now rewrite IH.
Qed.

Lemma endswith_rstrip c s :
  PosixPath.endswith c (PosixPath.rstrip c s) = false.
Proof.
  induction s as [|x s IH]; [reflexivity|].
  simpl. destruct (PosixPath.rstrip c s) as [|y r] eqn:Hr; simpl.
  - destruct (Ascii.eqb x c) eqn:Hx; simpl; [reflexivity|exact Hx].
  - rewrite andb_false_r. simpl. exact IH.
Qed.

Lemma all_char_append c (a b : string) :
  PosixPath.all_char c (a ++ b)
  = PosixPath.all_char c a && PosixPath.all_char c b.
Proof.
  induction a as [|x a IH]; simpl; [reflexivity|].
  now rewrite IH, andb_assoc.
Qed.

Lemma all_char_endswith c s :
  PosixPath.all_char c s = true -> s <> EmptyString ->
  PosixPath.endswith c s = true.
Proof.
  induction s as [|x s IH]; [congruence|].
  simpl. intros H _. apply andb_true_iff in H. destruct H as [Hx Hs].
  destruct s as [|y s]; [exact Hx|]. apply IH; [exact Hs|discriminate].
Qed.

(** [split] on a path without separator, and on a path cut at its last
    separator. *)
Lemma split_no_sep p :
  contains PosixPath.sep p = false -> PosixPath.split p = (EmptyString, p).
Proof.
  intros H. unfold PosixPath.split. rewrite (rfind_absent _ _ H). simpl Z.add.
  unfold PosixPath.slice_to, PosixPath.slice_from. simpl Z.to_nat.
  rewrite Nat.sub_0_r, substring_all.
  destruct p; reflexivity.
Qed.

Lemma split_at_last_sep a f :
  contains PosixPath.sep f = false ->
  PosixPath.split (a ++ String PosixPath.sep f)
  = (let head := (a ++ String PosixPath.sep EmptyString)%string in
     if PosixPath.all_char PosixPath.sep head then head
     else PosixPath.rstrip PosixPath.sep head,
     f).
Proof.
  intros Hf. unfold PosixPath.split. rewrite (rfind_last _ _ _ Hf).
  replace (Z.of_nat (String.length a) + 1)%Z
    with (Z.of_nat (String.length (a ++ String PosixPath.sep EmptyString)))
    by (rewrite length_append_char; lia).
  rewrite (append_assoc_char a PosixPath.sep f).
  rewrite slice_to_prefix, slice_from_suffix.
  cbv zeta.
  destruct (PosixPath.all_char PosixPath.sep (a ++ String PosixPath.sep EmptyString));
    [|destruct a; reflexivity].
  now rewrite andb_false_r.
Qed.

(** The head that [split] returns is a head, and its tail has no
    separator. *)
Lemma split_head_is_head p : is_head (fst (PosixPath.split p)).
Proof.
  destruct (contains PosixPath.sep p) eqn:Hp.
  - destruct (last_occurrence _ _ Hp) as (a & f & -> & Hf).
    rewrite (split_at_last_sep _ _ Hf). cbv zeta. cbn [fst].
    destruct (PosixPath.all_char PosixPath.sep (a ++ String PosixPath.sep EmptyString))
      eqn:Hall.
    + left. exact Hall.
    + right. apply endswith_rstrip.
  - rewrite (split_no_sep _ Hp). left. reflexivity.
Qed.

Lemma split_tail_no_sep p :
  contains PosixPath.sep (snd (PosixPath.split p)) = false.
Proof.
  destruct (contains PosixPath.sep p) eqn:Hp.
  - destruct (last_occurrence _ _ Hp) as (a & f & -> & Hf).
    now rewrite (split_at_last_sep _ _ Hf).
  - now rewrite (split_no_sep _ Hp).
Qed.

(** [split] undoes [join] on a head and a file name without separator. *)
Lemma split_join root f :
  is_head root -> contains PosixPath.sep f = false ->
  PosixPath.split (PosixPath.join root f) = (root, f).
Proof.
  intros Hroot Hf. unfold PosixPath.join.
  rewrite (startswith_contains _ _ Hf).
  destruct (PosixPath.is_empty root) eqn:Hempty.
  - destruct root; [|discriminate]. simpl. now apply split_no_sep.
  - assert (Hne : root <> EmptyString) by (intros ->; discriminate).
    simpl orb.
    destruct (PosixPath.endswith PosixPath.sep root) eqn:Hend.
    + destruct Hroot as [Hall|Hno]; [|congruence].
      destruct (endswith_inv _ _ Hend) as [a Ha].
      rewrite Ha, <- append_assoc_char, (split_at_last_sep _ _ Hf).
      cbv zeta. rewrite <- Ha, Hall. reflexivity.
    + assert (Happ : (root ++ "/" ++ f)%string
                     = (root ++ String PosixPath.sep f)%string) by reflexivity.
      rewrite Happ, (split_at_last_sep _ _ Hf). cbv zeta.
      destruct (PosixPath.all_char PosixPath.sep
                  (root ++ String PosixPath.sep EmptyString)) eqn:Hall.
      * exfalso. rewrite all_char_append in Hall.
        apply andb_true_iff in Hall. destruct Hall as [Hall _].
        rewrite (all_char_endswith _ _ Hall Hne) in Hend. discriminate.
      * now rewrite rstrip_append_char, (rstrip_no_end _ _ Hend).
Qed.


(* ------------------------------------------------------------------ *)
(** ** [output_file_path] *)

Lemma output_file_path_join input_file filename :
  common_lib.output_file_path input_file filename
  = PosixPath.join (dirname input_file) filename.
Proof.
  unfold common_lib.output_file_path, dirname.
  now destruct (PosixPath.split input_file).
Qed.

Lemma join_absolute a b :
  PosixPath.startswith PosixPath.sep b = true -> PosixPath.join a b = b.
Proof. intros H. unfold PosixPath.join. now rewrite H. Qed.

Lemma output_file_path_split input_file filename :
  contains PosixPath.sep filename = false ->
  PosixPath.split (common_lib.output_file_path input_file filename)
  = (dirname input_file, filename).
Proof.
  intros Hf. rewrite output_file_path_join.
  apply split_join; [apply split_head_is_head|exact Hf].
Qed.

Lemma output_file_path_beside input_file filename other :
  contains PosixPath.sep filename = false ->
  common_lib.output_file_path
    (common_lib.output_file_path input_file filename) other
  = common_lib.output_file_path input_file other.
Proof.
  intros Hf. rewrite (output_file_path_join (common_lib.output_file_path _ _)).
  unfold dirname. rewrite (output_file_path_split _ _ Hf). cbn [fst].
  now rewrite <- output_file_path_join.
Qed.

Lemma dirname_output_file_path input_file filename :
  contains PosixPath.sep filename = false ->
  dirname (common_lib.output_file_path input_file filename) = dirname input_file.
Proof.
  intros Hf. unfold dirname at 1. now rewrite output_file_path_split.
Qed.

(** The log of a stage is in the directory of the file the stage is
    given. *)
Lemma dirname_log input_file :
  dirname (common_lib.output_file_path input_file step_file_lib.log_file)
  = dirname input_file.
Proof. now apply dirname_output_file_path. Qed.

Ltac traces_step :=
  match goal with
  | |- traces _ (bind _ _) => apply traces_bind; [|intros ?]
  | |- traces _ (ret _) => apply traces_ret
  | |- traces _ (raise _) => apply traces_raise
  | |- traces _ (call _) => apply traces_emit; exact I
  | |- traces _ (print _) => apply traces_emit; exact I
  | |- traces _ (emit _) => apply traces_emit; exact I
  | |- traces _ (common_lib.redirect_output _ _ _) =>
      apply traces_redirect; [exact I | exact I |]
  | |- traces _ (if ?b then _ else _) => destruct b
  | |- traces _ (match ?x with _ => _ end) => destruct x
  end.

Ltac traces_auto := repeat traces_step.

Lemma read_step_geometry_traces env step_filename :
  traces quiet (step_file_lib.read_step_geometry env step_filename).
Proof. unfold step_file_lib.read_step_geometry. traces_auto. Qed.

Lemma create_plane_point_normal_traces env plane_point plane_normal :
  traces quiet
    (step_file_lib.create_plane_point_normal env plane_point plane_normal).
Proof.
  unfold step_file_lib.create_plane_point_normal,
    step_file_lib.make_gp_Pnt, step_file_lib.make_gp_Dir.
  traces_auto.
Qed.

Lemma find_intersection_traces env step_filename plane_point plane_normal :
  traces quiet
    (step_file_lib.find_intersection env step_filename plane_point plane_normal).
Proof.
  unfold step_file_lib.find_intersection.
  apply traces_bind; [apply read_step_geometry_traces|intros shape].
  apply traces_bind; [apply create_plane_point_normal_traces|intros plane].
  traces_auto.
Qed.

(* ------------------------------------------------------------------ *)
(** ** The explorer and the entities of a shape *)








(* ------------------------------------------------------------------ *)
(** ** What a successful [find_intersection] returns *)

(** A load that succeeds has opened its log. *)
Lemma read_step_geometry_opens env step_filename h shape :
  fst (step_file_lib.read_step_geometry env step_filename h) = Ok shape ->
  directory_exists env
    (dirname (common_lib.output_file_path step_filename step_file_lib.log_file))
  = true.
Proof.
  unfold step_file_lib.read_step_geometry, common_lib.redirect_output, bind.
  destruct (directory_exists env _); [reflexivity|]. simpl. discriminate.
Qed.

Lemma find_intersection_returns env step_filename plane_point plane_normal
      h shape plane result_shape result h' :
  step_file_lib.find_intersection env step_filename plane_point plane_normal h
  = (Ok (shape, plane, result_shape, result), h') ->
  fst (step_file_lib.read_step_geometry env step_filename h) = Ok shape
  /\ Section_IsDone env shape plane = true
  /\ result_shape = Section_Shape env shape plane
  /\ result = More (TopExp_Explorer result_shape TopAbs_EDGE).
Proof.
  pose proof (read_step_geometry_opens env step_filename h) as Hopen.
  unfold step_file_lib.find_intersection, bind.
  destruct (step_file_lib.read_step_geometry env step_filename h)
    as [[shape0|e] h1]; [|discriminate].
  specialize (Hopen shape0 eq_refl).
  destruct (step_file_lib.create_plane_point_normal env plane_point plane_normal h1)
    as [[plane0|e] h2]; [|discriminate].
  unfold common_lib.redirect_output, call, emit, print, bind, ret.
  rewrite Hopen. simpl.
  destruct (Section_IsDone env shape0 plane0) eqn:Hdone; simpl;
    [|discriminate].
  intros H. injection H as <- <- <- <- _.
  repeat split; try assumption.
  now destruct (More _).
Qed.



(* ------------------------------------------------------------------ *)
(** ** Quiet histories *)

Lemma quiet_observations evs :
  Forall quiet evs ->
  faces_made evs = [] /\ exported_images evs = [] /\ step_writes evs = [].
Proof.
  induction 1 as [|e evs He _ (IH1 & IH2 & IH3)]; [repeat split|].
  unfold faces_made, exported_images, step_writes in *. simpl.
  rewrite IH1, IH2, IH3.
  destruct e as [p|p|p|c|m]; try (repeat split; reflexivity).
  destruct c; simpl in He; try contradiction; repeat split; reflexivity.
Qed.

(** The loading stage, once its log is open, calls the reader, then
    [ReadFile], and at most [TransferRoots], [OneShape] and [IsNull]
    after them. *)
Lemma read_step_geometry_calls env step_filename h :
  directory_exists env
    (dirname (common_lib.output_file_path step_filename step_file_lib.log_file))
  = true ->
  exists n,
    kernel_calls (snd (step_file_lib.read_step_geometry env step_filename h))
    = kernel_calls h
        ++ K_STEPControl_Reader :: K_ReadFile step_filename
             :: firstn n [K_TransferRoots; K_OneShape; K_IsNull].
Proof.
  intros Hopen.
  unfold step_file_lib.read_step_geometry, common_lib.redirect_output,
    bind, call, print, emit, ret, raise.
  rewrite Hopen. cbv beta iota zeta.
  destruct (ReadFile env step_filename =? 1)%Z; cbv beta iota delta [negb].
  - destruct (TransferRoots env step_filename =? 0)%Z; cbv beta iota.
    + exists 1%nat. simpl. unfold kernel_calls.
      repeat rewrite flat_map_app. simpl. rewrite <- !app_assoc. reflexivity.
    + exists 3%nat. unfold kernel_calls.
      destruct (OneShape env step_filename); simpl;
        repeat rewrite flat_map_app; simpl; rewrite <- !app_assoc; reflexivity.
  - exists 0%nat. simpl. unfold kernel_calls.
    repeat rewrite flat_map_app. simpl. rewrite <- !app_assoc. reflexivity.
Qed.

(* ------------------------------------------------------------------ *)
(** ** The runs of [main] *)

(** [parse_args] on a command line whose [--in-plane] is accepted, and
    on one where it is refused. *)
Lemma parse_args_accepted env argv h :
  intersector.plane_values argv <> [] ->
  intersector.parse_args env argv h
  = (if os_path_isfile env (intersector.in_step argv)
     then Ok {| intersector.args_in_step := intersector.in_step argv;
                intersector.args_in_plane := intersector.plane_values argv;
                intersector.args_out_step := intersector.output_filename argv |}
     else Raise (OSError ("File does not exist: "
                            ++ intersector.in_step argv)%string),
     h ++ [EvIsFile (intersector.in_step argv)]).
Proof.
  intros Hne.
  unfold intersector.parse_args, intersector.parse_in_plane,
    common_lib.check_file, bind, emit, ret, raise.
  destruct (intersector.plane_values argv) as [|v values]; [contradiction|].
  destruct (intersector.refused_first argv);
    destruct (os_path_isfile env (intersector.in_step argv)); reflexivity.
Qed.

Lemma parse_args_refused env argv h :
  intersector.plane_values argv = [] ->
  intersector.parse_args env argv h
  = if intersector.refused_first argv
    then (Raise (SystemExit 2), h)
    else (if os_path_isfile env (intersector.in_step argv)
          then Raise (SystemExit 2)
          else Raise (OSError ("File does not exist: "
                                 ++ intersector.in_step argv)%string),
          h ++ [EvIsFile (intersector.in_step argv)]).
Proof.
  intros Hnone.
  unfold intersector.parse_args, intersector.parse_in_plane,
    common_lib.check_file, bind, emit, ret, raise.
  rewrite Hnone.
  destruct (intersector.refused_first argv); [reflexivity|].
  destruct (os_path_isfile env (intersector.in_step argv)); reflexivity.
Qed.

Lemma six_values_accepted (values : list float) :
  List.length values = 6%nat -> values <> [].
Proof. intros H ->. discriminate. Qed.

(** A call of [find_intersection] that returns has opened the log beside
    the STEP file. *)
Lemma find_intersection_opens env step_filename plane_point plane_normal h r :
  fst (step_file_lib.find_intersection env step_filename plane_point plane_normal h)
  = Ok r ->
  directory_exists env
    (dirname (common_lib.output_file_path step_filename "lib_occ.log"))
  = true.
Proof.
  pose proof (read_step_geometry_opens env step_filename h) as Hopen.
  unfold step_file_lib.find_intersection, bind.
  destruct (step_file_lib.read_step_geometry env step_filename h)
    as [[shape0|e] h1]; [|discriminate].
  intros _. exact (Hopen shape0 eq_refl).
Qed.

(** The bounding box of a solid whose section has an edge is not void:
    [compute_dimensions] returns. *)
Lemma found_not_void env step_filename plane_point plane_normal h
      shape plane result_shape :
  fst (step_file_lib.find_intersection env step_filename plane_point plane_normal h)
  = Ok (shape, plane, result_shape, true) ->
  Bnd_Box_IsVoid env shape = false.
Proof.
  intros Hfound.
  destruct (step_file_lib.find_intersection env step_filename
              plane_point plane_normal h) as [r h'] eqn:Hrun.
  cbn [fst] in Hfound. subst r.
  apply find_intersection_returns in Hrun.
  destruct Hrun as (_ & _ & -> & Hmore).
  apply (section_not_void env shape plane). now symmetry.
Qed.

Section Runs.

Variable env : Env.
Variable argv : intersector.CommandLine.

Let step_file := intersector.in_step argv.
Let plane_point := firstn 3 (intersector.plane_values argv).
Let plane_normal := skipn 3 (intersector.plane_values argv).
Let output_file :=
  common_lib.output_file_path step_file (intersector.output_filename argv).

(** [argparse] refuses [--in-plane] before it converts [--in-step]. *)
Lemma main_run_refused_first :
  intersector.plane_values argv = [] ->
  intersector.refused_first argv = true ->
  intersector.main env argv [] = (Raise (SystemExit 2), []).
Proof.
  intros Hnone Hfirst. unfold intersector.main. unfold bind at 1.
  now rewrite (parse_args_refused _ _ _ Hnone), Hfirst.
Qed.

(** [argparse] refuses [--in-plane] after it has converted [--in-step]. *)
Lemma main_run_refused :
  intersector.plane_values argv = [] ->
  intersector.refused_first argv = false ->
  os_path_isfile env step_file = true ->
  intersector.main env argv [] = (Raise (SystemExit 2), [EvIsFile step_file]).
Proof.
  intros Hnone Hfirst Hfile. unfold intersector.main. unfold bind at 1.
  rewrite (parse_args_refused _ _ _ Hnone), Hfirst. fold step_file.
  now rewrite Hfile.
Qed.

(** The path given to [--in-step] names no file, and [--in-plane] has not
    been refused before. *)
Lemma main_run_missing :
  os_path_isfile env step_file = false ->
  (intersector.plane_values argv = [] -> intersector.refused_first argv = false) ->
  intersector.main env argv []
  = (Raise (OSError ("File does not exist: " ++ step_file)%string),
     [EvIsFile step_file]).
Proof.
  intros Hfile Horder. unfold intersector.main. unfold bind at 1.
  destruct (intersector.plane_values argv) as [|v values] eqn:Hvalues.
  - rewrite (parse_args_refused _ _ _ Hvalues), (Horder eq_refl).
    fold step_file. now rewrite Hfile.
  - rewrite parse_args_accepted by (rewrite Hvalues; discriminate).
    fold step_file. now rewrite Hfile.
Qed.

(** The file exists and [--in-plane] has values, but not six. *)
Lemma main_run_bad_count :
  os_path_isfile env step_file = true ->
  intersector.plane_values argv <> [] ->
  List.length (intersector.plane_values argv) <> 6%nat ->
  intersector.main env argv []
  = (Raise (ArgumentTypeError intersector.in_plane_error),
     [EvIsFile step_file]).
Proof.
  intros Hfile Hne Hlen. unfold intersector.main. unfold bind at 1.
  rewrite (parse_args_accepted _ _ _ Hne). fold step_file. rewrite Hfile.
  cbv beta iota zeta delta [negb intersector.args_in_plane
    intersector.args_in_step intersector.args_out_step].
  apply Nat.eqb_neq in Hlen. rewrite Hlen. reflexivity.
Qed.

Ltac enter_main Hfile Hsix :=
  unfold intersector.main; unfold bind at 1;
  rewrite (parse_args_accepted _ _ _ (six_values_accepted _ Hsix));
  fold step_file; rewrite Hfile;
  cbv beta iota zeta delta [negb intersector.args_in_plane
    intersector.args_in_step intersector.args_out_step];
  rewrite Hsix; cbv beta iota delta [Nat.eqb negb];
  fold plane_point plane_normal.

(** The file exists, [--in-plane] has six values, and
    [find_intersection], called on the first three and the last three
    values, raises: [main] lets the exception through. *)
Lemma main_run_raises e :
  os_path_isfile env step_file = true ->
  List.length (intersector.plane_values argv) = 6%nat ->
  fst (step_file_lib.find_intersection env step_file plane_point plane_normal [])
  = Raise e ->
  intersector.main env argv []
  = (Raise e,
     [EvIsFile step_file]
       ++ snd (step_file_lib.find_intersection
                 env step_file plane_point plane_normal [])).
Proof.
  intros Hfile Hsix Hfound.
  destruct (traces_frame _ _
              (find_intersection_traces env step_file plane_point plane_normal))
    as [_ Hframe].
  enter_main Hfile Hsix.
  unfold bind at 1. rewrite Hframe, Hfound. reflexivity.
Qed.

(** [find_intersection] returns the flag [False]. *)
Lemma main_run_empty shape plane result_shape :
  os_path_isfile env step_file = true ->
  List.length (intersector.plane_values argv) = 6%nat ->
  fst (step_file_lib.find_intersection env step_file plane_point plane_normal [])
  = Ok (shape, plane, result_shape, false) ->
  intersector.main env argv []
  = (Ok tt,
     [EvIsFile step_file]
       ++ snd (step_file_lib.find_intersection
                 env step_file plane_point plane_normal [])
       ++ [EvPrint "No intersection found"]).
Proof.
  intros Hfile Hsix Hfound.
  destruct (traces_frame _ _
              (find_intersection_traces env step_file plane_point plane_normal))
    as [_ Hframe].
  enter_main Hfile Hsix.
  unfold bind at 1. rewrite Hframe, Hfound.
  unfold bind, print, emit, ret. cbv beta iota.
  rewrite <- !app_assoc. reflexivity.
Qed.

(** [find_intersection] returns the flag [True]: rendering, then the
    STEP write when its log can be opened, then the branch on its
    status. *)
Lemma main_run_found shape plane result_shape :
  os_path_isfile env step_file = true ->
  List.length (intersector.plane_values argv) = 6%nat ->
  fst (step_file_lib.find_intersection env step_file plane_point plane_normal [])
  = Ok (shape, plane, result_shape, true) ->
  directory_exists env (dirname output_file) = true ->
  intersector.main env argv []
  = (if (Write env result_shape output_file =? 1)%Z
     then Ok tt
     else Raise (RuntimeError
                   ("Intersection found but failed to write STEP file: "
                      ++ output_file)%string),
     [EvIsFile step_file]
       ++ snd (step_file_lib.find_intersection
                 env step_file plane_point plane_normal [])
       ++ render_events env step_file shape plane
       ++ write_events result_shape output_file
       ++ (if (Write env result_shape output_file =? 1)%Z
           then [EvPrint ("Intersection found and written to: "
                            ++ intersector.output_filename argv)%string;
                 EvPrint ("A png file with the geometry and the plane has been written to: "
                            ++ png_path step_file)%string]
           else [])).
Proof.
  intros Hfile Hsix Hfound Hdir.
  destruct (traces_frame _ _
              (find_intersection_traces env step_file plane_point plane_normal))
    as [_ Hframe].
  pose proof (find_intersection_opens _ _ _ _ _ _ Hfound) as Hopen.
  pose proof (found_not_void _ _ _ _ _ _ _ _ Hfound) as Hbox.
  enter_main Hfile Hsix.
  unfold bind at 1. rewrite Hframe, Hfound.
  unfold step_file_lib.compute_dimensions, step_file_lib.combine_geometry_plane,
    step_file_lib.create_face, step_file_lib.plot_geometry,
    step_file_lib.write_step_geometry, common_lib.redirect_output,
    bind, call, print, emit, ret, raise.
  cbv beta iota zeta. fold output_file.
  rewrite Hopen, Hbox, (dirname_log output_file), Hdir.
  unfold render_events, write_events, extent, spans, png_path.
  destruct (Bnd_Box_Get env shape) as [[[[[xmin ymin] zmin] xmax] ymax] zmax].
  destruct (PosixPath.split step_file) as [root name].
  cbv beta iota zeta delta [snd].
  destruct (PosixPath.splitext name) as [name0 ext].
  cbv beta iota zeta delta [fst].
  destruct (Write env result_shape output_file =? 1)%Z;
    cbv beta iota; f_equal; rewrite <- !app_assoc; reflexivity.
Qed.

(** [find_intersection] returns the flag [True] and the log of the STEP
    write cannot be opened: the run stops after the rendering. *)
Lemma main_run_found_unwritten shape plane result_shape :
  os_path_isfile env step_file = true ->
  List.length (intersector.plane_values argv) = 6%nat ->
  fst (step_file_lib.find_intersection env step_file plane_point plane_normal [])
  = Ok (shape, plane, result_shape, true) ->
  directory_exists env (dirname output_file) = false ->
  intersector.main env argv []
  = (Raise (FileNotFoundError
              ("[Errno 2] No such file or directory: '"
                 ++ common_lib.output_file_path output_file "lib_occ.log"
                 ++ "'")%string),
     [EvIsFile step_file]
       ++ snd (step_file_lib.find_intersection
                 env step_file plane_point plane_normal [])
       ++ render_events env step_file shape plane).
Proof.
  intros Hfile Hsix Hfound Hdir.
  destruct (traces_frame _ _
              (find_intersection_traces env step_file plane_point plane_normal))
    as [_ Hframe].
  pose proof (find_intersection_opens _ _ _ _ _ _ Hfound) as Hopen.
  pose proof (found_not_void _ _ _ _ _ _ _ _ Hfound) as Hbox.
  enter_main Hfile Hsix.
  unfold bind at 1. rewrite Hframe, Hfound.
  unfold step_file_lib.compute_dimensions, step_file_lib.combine_geometry_plane,
    step_file_lib.create_face, step_file_lib.plot_geometry,
    step_file_lib.write_step_geometry, common_lib.redirect_output,
    bind, call, print, emit, ret, raise.
  cbv beta iota zeta. fold output_file.
  rewrite Hopen, Hbox, (dirname_log output_file), Hdir.
  unfold render_events, extent, spans, png_path.
  destruct (Bnd_Box_Get env shape) as [[[[[xmin ymin] zmin] xmax] ymax] zmax].
  destruct (PosixPath.split step_file) as [root name].
  cbv beta iota zeta delta [snd].
  destruct (PosixPath.splitext name) as [name0 ext].
  cbv beta iota zeta delta [fst].
  f_equal. rewrite <- !app_assoc. reflexivity.
Qed.

End Runs.

(* ------------------------------------------------------------------ *)
(** ** [max(dx, dy, dz)] *)

Lemma Qgtb_true a b : intersector.Qgtb a b = true <-> b < a.
Proof.
  unfold intersector.Qgtb. rewrite negb_true_iff.
  split.
  - intros H. apply Qnot_le_lt. intros Hle.
    apply Qle_bool_iff in Hle. congruence.
  - intros H. destruct (Qle_bool a b) eqn:Hle; [|reflexivity].
    apply Qle_bool_iff in Hle. exfalso. apply (Qlt_not_le _ _ H Hle).
Qed.

Lemma Qgtb_false a b : intersector.Qgtb a b = false <-> a <= b.
Proof.
  unfold intersector.Qgtb. rewrite negb_false_iff. apply Qle_bool_iff.
Qed.

(** [max3] returns one of its arguments, and none of them exceeds it. *)
Lemma max3_is_max a b c :
  let m := intersector.max3 a b c in
  (m = a \/ m = b \/ m = c) /\ a <= m /\ b <= m /\ c <= m.
Proof.
  unfold intersector.max3. cbv zeta.
  destruct (intersector.Qgtb b a) eqn:Hba;
    [apply Qgtb_true in Hba|apply Qgtb_false in Hba].
  - destruct (intersector.Qgtb c b) eqn:Hcb;
      [apply Qgtb_true in Hcb|apply Qgtb_false in Hcb].
    + split; [auto|]. repeat split; lra.
    + split; [auto|]. repeat split; lra.
  - destruct (intersector.Qgtb c a) eqn:Hca;
      [apply Qgtb_true in Hca|apply Qgtb_false in Hca].
    + split; [auto|]. repeat split; lra.
    + split; [auto|]. repeat split; lra.
Qed.

Lemma max3_Qmax a b c : intersector.max3 a b c == Qmax a (Qmax b c).
Proof.
  destruct (max3_is_max a b c) as (Hone & Ha & Hb & Hc). cbv zeta in *.
  apply Qle_antisym.
  - destruct Hone as [ -> | [ -> | -> ] ].
    + apply Q.le_max_l.
    + eapply Qle_trans; [apply Q.le_max_l|apply Q.le_max_r].
    + eapply Qle_trans; [apply Q.le_max_r|apply Q.le_max_r].
  - apply Q.max_lub; [assumption|]. apply Q.max_lub; assumption.
Qed.

(** The value of [max3] is characterised, up to equality of rationals,
    as the argument that bounds the others. *)
Lemma max3_unique a b c m :
  (m == a \/ m == b \/ m == c) -> a <= m -> b <= m -> c <= m ->
  intersector.max3 a b c == m.
Proof.
  intros Hone Ha Hb Hc.
  destruct (max3_is_max a b c) as (Hone' & Ha' & Hb' & Hc'). cbv zeta in *.
  apply Qle_antisym.
  - destruct Hone' as [ -> | [ -> | -> ] ]; assumption.
  - destruct Hone as [ -> | [ -> | -> ] ]; assumption.
Qed.

Lemma observe_app {B} (f : event -> list B) (h1 h2 : history) :
  flat_map f (h1 ++ h2) = flat_map f h1 ++ flat_map f h2.
Proof. apply flat_map_app. Qed.

(* ------------------------------------------------------------------ *)

(** C2.  In every run that finds an intersection, the extent is
    [max(dx, dy, dz)] of the spans of the solid's bounding box (one of
    the three spans, not exceeded by any of them), and the only face the
    kernel is asked to build is the patch on the plane with bounds
    [-extent, extent] in both in-plane directions: the extent itself is
    the half-size, with no margin, and the patch is a square of side
    [2 * extent]. *)
Theorem C2_extent_is_patch_half_size
        env argv shape plane result_shape dx dy dz :
  os_path_isfile env (intersector.in_step argv) = true ->
  List.length (intersector.plane_values argv) = 6%nat ->
  fst (step_file_lib.find_intersection env (intersector.in_step argv)
         (firstn 3 (intersector.plane_values argv))
         (skipn 3 (intersector.plane_values argv)) [])
  = Ok (shape, plane, result_shape, true) ->
  spans env shape = (dx, dy, dz) ->
  let d := extent env shape in
  d = intersector.max3 dx dy dz
  /\ d == Qmax dx (Qmax dy dz)
  /\ (d = dx \/ d = dy \/ d = dz) /\ dx <= d /\ dy <= d /\ dz <= d
  /\ faces_made (snd (intersector.main env argv []))
     = [mk_Face plane (- d) d (- d) d]
  /\ (forall f, In f (faces_made (snd (intersector.main env argv []))) ->
      UMax f - UMin f == 2 * d /\ VMax f - VMin f == 2 * d).
Proof.
  intros Hfile Hsix Hfound Hspans d.
  assert (Hd : d = intersector.max3 dx dy dz).
  { unfold d, extent. now rewrite Hspans. }
  assert (Hfaces : faces_made (snd (intersector.main env argv []))
                   = [mk_Face plane (- d) d (- d) d]).
  { destruct (traces_frame _ _
                (find_intersection_traces env (intersector.in_step argv)
                   (firstn 3 (intersector.plane_values argv))
                   (skipn 3 (intersector.plane_values argv)))) as [Hquiet _].
    apply quiet_observations in Hquiet. destruct Hquiet as (Hq & _ & _).
    destruct (directory_exists env
                (dirname (common_lib.output_file_path (intersector.in_step argv)
                            (intersector.output_filename argv)))) eqn:Hdir.
    - rewrite (main_run_found env argv shape plane result_shape
                 Hfile Hsix Hfound Hdir).
      cbn [fst snd]. unfold faces_made in *.
      rewrite !observe_app, Hq.
      destruct (Write env result_shape _ =? 1)%Z; reflexivity.
    - rewrite (main_run_found_unwritten env argv shape plane result_shape
                 Hfile Hsix Hfound Hdir).
      cbn [fst snd]. unfold faces_made in *.
      rewrite !observe_app, Hq. reflexivity. }
  split; [exact Hd|].
  split; [rewrite Hd; apply max3_Qmax|].
  destruct (max3_is_max dx dy dz) as (Hone & Ha & Hb & Hc). cbv zeta in *.
  rewrite <- Hd in Hone, Ha, Hb, Hc.
  split; [exact Hone|]. split; [exact Ha|]. split; [exact Hb|].
  split; [exact Hc|]. split; [exact Hfaces|].
  intros f Hf. rewrite Hfaces in Hf. destruct Hf as [<-|[]].
  simpl. split; ring.
Qed.

(** Scenario A: the unit cube has extent 1, and the patch is the square
    [-1, 1] x [-1, 1]. *)
Lemma C2_extent_is_patch_half_size_witness :
  extent Demo.env Demo.cube == 1
  /\ faces_made (snd (intersector.main Demo.env Demo.argv_A []))
     = [mk_Face (mk_gp_Pln (mk_gp_Pnt 0 0 0) (mk_gp_Dir 0 0 1))
          (- extent Demo.env Demo.cube) (extent Demo.env Demo.cube)
          (- extent Demo.env Demo.cube) (extent Demo.env Demo.cube)].
Proof.
  destruct (C2_extent_is_patch_half_size Demo.env Demo.argv_A Demo.cube
              (mk_gp_Pln (mk_gp_Pnt 0 0 0) (mk_gp_Dir 0 0 1))
              Demo.square_section
              ((1 # 2) - (-1 # 2)) ((1 # 2) - (-1 # 2)) ((1 # 2) - (-1 # 2))
              eq_refl eq_refl eq_refl eq_refl)
    as (_ & _ & _ & _ & _ & _ & Hfaces & _).
  split; [vm_compute; reflexivity | exact Hfaces].
Defined.

(* ------------------------------------------------------------------ *)

(** C4.  A run whose section is Empty ([find_intersection] returns the
    flag [False]) ends normally, asks for no image export and no STEP
    write, and its last action is to print "No intersection found". *)
Theorem C4_empty_run_succeeds_without_outputs
        env argv shape plane result_shape :
  os_path_isfile env (intersector.in_step argv) = true ->
  List.length (intersector.plane_values argv) = 6%nat ->
  fst (step_file_lib.find_intersection env (intersector.in_step argv)
         (firstn 3 (intersector.plane_values argv))
         (skipn 3 (intersector.plane_values argv)) [])
  = Ok (shape, plane, result_shape, false) ->
  let run := intersector.main env argv [] in
  fst run = Ok tt
  /\ exported_images (snd run) = []
  /\ step_writes (snd run) = []
  /\ (exists h, snd run = h ++ [EvPrint "No intersection found"])
  /\ In "No intersection found" (printed (snd run)).
Proof.
  intros Hfile Hsix Hfound run. unfold run.
  rewrite (main_run_empty env argv shape plane result_shape Hfile Hsix Hfound).
  destruct (traces_frame _ _
              (find_intersection_traces env (intersector.in_step argv)
                 (firstn 3 (intersector.plane_values argv))
                 (skipn 3 (intersector.plane_values argv)))) as [Hquiet _].
  apply quiet_observations in Hquiet. destruct Hquiet as (_ & Himg & Hwr).
  cbn [fst snd]. unfold exported_images, step_writes, printed in *.
  rewrite !observe_app, Himg, Hwr.
  split; [reflexivity|]. split; [reflexivity|]. split; [reflexivity|].
  split.
  - eexists. rewrite app_assoc. reflexivity.
  - apply in_or_app. right. apply in_or_app. right. now left.
Qed.

(** Scenario B: the plane z = 10 misses the unit cube. *)
Lemma C4_empty_run_succeeds_without_outputs_witness :
  let run := intersector.main Demo.env Demo.argv_B [] in
  fst run = Ok tt
  /\ exported_images (snd run) = []
  /\ step_writes (snd run) = []
  /\ (exists h, snd run = h ++ [EvPrint "No intersection found"])
  /\ In "No intersection found" (printed (snd run)).
Proof.
  apply (C4_empty_run_succeeds_without_outputs Demo.env Demo.argv_B Demo.cube
           (mk_gp_Pln (mk_gp_Pnt 0 0 10) (mk_gp_Dir 0 0 1))
           Demo.empty_section);
    reflexivity.
Defined.

(* ------------------------------------------------------------------ *)

Lemma splitext_root_no_sep name :
  contains PosixPath.sep name = false ->
  contains PosixPath.sep (fst (PosixPath.splitext name)) = false.
Proof.
  intros H. unfold PosixPath.splitext.
  destruct (_ && _); cbn [fst]; [|exact H].
  now apply contains_substring.
Qed.

Lemma png_path_split step_file :
  PosixPath.split (png_path step_file)
  = (dirname step_file, (stem step_file ++ ".png")%string).
Proof.
  unfold png_path. fold (stem step_file).
  apply output_file_path_split.
  rewrite contains_append. unfold stem.
  rewrite (splitext_root_no_sep _ (split_tail_no_sep step_file)).
  reflexivity.
Qed.

(** The image is not a log: [lib_occ.log] does not end with [.png]. *)
Lemma png_name_not_log s : (s ++ ".png")%string <> "lib_occ.log".
Proof.
  intros H.
  do 11 (destruct s as [|? s]; [discriminate H|];
         simpl in H; injection H as _ H).
  destruct s; discriminate H.
Qed.

Lemma png_path_not_log step_file other :
  png_path step_file <> common_lib.output_file_path other "lib_occ.log".
Proof.
  intros H.
  assert (Hsplit : PosixPath.split (png_path step_file)
                   = PosixPath.split
                       (common_lib.output_file_path other "lib_occ.log"))
    by now rewrite H.
  rewrite png_path_split, output_file_path_split in Hsplit by reflexivity.
  injection Hsplit as _ Hname. exact (png_name_not_log _ Hname).
Qed.

(** The paths of the STEP writes of a history are the paths of its
    [Write] calls. *)
Lemma step_writes_In p h :
  In (EvKernel (K_Write p)) h -> In p (step_writes h).
Proof.
  intros H. unfold step_writes. apply in_flat_map.
  exists (EvKernel (K_Write p)). split; [exact H|now left].
Qed.

Lemma render_events_export env step_file shape plane :
  render_events env step_file shape plane
  = removelast (removelast (render_events env step_file shape plane))
      ++ [EvKernel (K_ExportToImage (png_path step_file));
          EvRestore (common_lib.output_file_path step_file "lib_occ.log")].
Proof. reflexivity. Qed.

(** C5.  In a run that finds an intersection, attempts the STEP write
    and gets a status other than 1 (success), [main] raises the
    RuntimeError "Intersection found but failed to write STEP file: ...".
    The image was exported before the write was attempted; after the
    export the run opens the log of the write and calls the writer, and
    after the failed write it only closes that log: nothing is undone,
    no other path is touched, and the path of the image is not touched
    again unless it is the output path itself. *)
Theorem C5_write_failure_keeps_image
        env argv shape plane result_shape :
  os_path_isfile env (intersector.in_step argv) = true ->
  List.length (intersector.plane_values argv) = 6%nat ->
  fst (step_file_lib.find_intersection env (intersector.in_step argv)
         (firstn 3 (intersector.plane_values argv))
         (skipn 3 (intersector.plane_values argv)) [])
  = Ok (shape, plane, result_shape, true) ->
  let output_file :=
    common_lib.output_file_path (intersector.in_step argv)
      (intersector.output_filename argv) in
  let write_log := common_lib.output_file_path output_file "lib_occ.log" in
  let output_png := png_path (intersector.in_step argv) in
  let run := intersector.main env argv [] in
  In (EvKernel (K_Write output_file)) (snd run) ->
  Write env result_shape output_file <> 1%Z ->
  fst run
  = Raise (RuntimeError
             ("Intersection found but failed to write STEP file: "
                ++ output_file)%string)
  /\ (exists before after,
         snd run = before ++ EvKernel (K_Write output_file) :: after
         /\ exported_images before = [output_png]
         /\ step_writes before = []
         /\ after = [EvRestore write_log])
  /\ exported_images (snd run) = [output_png]
  /\ (exists before after,
         snd run = before ++ EvKernel (K_ExportToImage output_png) :: after
         /\ touched_paths after = [write_log; output_file]
         /\ (output_file <> output_png -> ~ In output_png (touched_paths after))).
Proof.
  intros Hfile Hsix Hfound output_file write_log output_png run.
  destruct (traces_frame _ _
              (find_intersection_traces env (intersector.in_step argv)
                 (firstn 3 (intersector.plane_values argv))
                 (skipn 3 (intersector.plane_values argv)))) as [Hquiet _].
  apply quiet_observations in Hquiet. destruct Hquiet as (_ & Himg & Hwr).
  unfold run.
  destruct (directory_exists env (dirname output_file)) eqn:Hdir.
  2:{ rewrite (main_run_found_unwritten env argv shape plane result_shape
                 Hfile Hsix Hfound Hdir).
      cbn [snd]. intros Hattempt _. exfalso.
      apply step_writes_In in Hattempt. unfold step_writes in *.
      rewrite !observe_app, Hwr in Hattempt. exact Hattempt. }
  rewrite (main_run_found env argv shape plane result_shape
             Hfile Hsix Hfound Hdir).
  fold output_file. intros _ Hstatus.
  apply Z.eqb_neq in Hstatus. rewrite Hstatus.
  cbn [fst snd].
  set (evs := snd (step_file_lib.find_intersection _ _ _ _ _)) in *.
  assert (Hall : exported_images
                   ([EvIsFile (intersector.in_step argv)] ++ evs
                      ++ render_events env (intersector.in_step argv) shape plane
                      ++ write_events result_shape output_file ++ [])
                 = [output_png]).
  { unfold exported_images in *. rewrite !observe_app, Himg. reflexivity. }
  split; [reflexivity|]. split; [|split].
  - exists ([EvIsFile (intersector.in_step argv)] ++ evs
              ++ render_events env (intersector.in_step argv) shape plane
              ++ [EvRedirect write_log;
                  EvKernel K_STEPControl_Writer;
                  EvKernel (K_Transfer result_shape)]),
           [EvRestore write_log].
    split; [|split; [|split]].
    + unfold write_events. rewrite <- !app_assoc. reflexivity.
    + unfold exported_images in *. rewrite !observe_app, Himg. reflexivity.
    + unfold step_writes in *. rewrite !observe_app, Hwr. reflexivity.
    + reflexivity.
  - exact Hall.
  - exists ([EvIsFile (intersector.in_step argv)] ++ evs
              ++ removelast (removelast
                   (render_events env (intersector.in_step argv) shape plane))),
           ([EvRestore (common_lib.output_file_path
                          (intersector.in_step argv) "lib_occ.log")]
              ++ write_events result_shape output_file ++ []).
    split; [|split; [reflexivity|]].
    + rewrite (render_events_export env (intersector.in_step argv) shape plane)
        at 1.
      rewrite <- !app_assoc. reflexivity.
    + intros Hother [Hlog|[Hout|[]]].
      * symmetry in Hlog. exact (png_path_not_log _ _ Hlog).
      * now apply Hother.
Qed.

(** The write to [/tmp/out/locked.stp] fails after [/data/cube.png]
    was exported. *)
Lemma C5_write_failure_keeps_image_witness :
  let run := intersector.main Demo.env Demo.argv_write_fails [] in
  fst run
  = Raise (RuntimeError
             "Intersection found but failed to write STEP file: /tmp/out/locked.stp")
  /\ exported_images (snd run) = ["/data/cube.png"]
  /\ exists before after,
       snd run = before ++ EvKernel (K_ExportToImage "/data/cube.png") :: after
       /\ touched_paths after = ["/tmp/out/lib_occ.log"; "/tmp/out/locked.stp"].
Proof.
  destruct (C5_write_failure_keeps_image Demo.env Demo.argv_write_fails
              Demo.cube (mk_gp_Pln (mk_gp_Pnt 0 0 0) (mk_gp_Dir 0 0 1))
              Demo.square_section eq_refl eq_refl eq_refl)
    as (Hraise & _ & Himg & before & after & Hrun & Htouched & _).
  - vm_compute. repeat (first [left; reflexivity | right]).
  - vm_compute. discriminate.
  - cbv zeta. split; [exact Hraise|]. split; [exact Himg|].
    exists before, after. split; [exact Hrun|exact Htouched].
Defined.

(* ------------------------------------------------------------------ *)

(** The spans of an ordered bounding box are not negative. *)
Lemma spans_not_negative env shape dx dy dz :
  box_ordered env shape ->
  spans env shape = (dx, dy, dz) ->
  0 <= dx /\ 0 <= dy /\ 0 <= dz.
Proof.
  unfold box_ordered, spans.
  destruct (Bnd_Box_Get env shape) as [[[[[xmin ymin] zmin] xmax] ymax] zmax].
  intros (Hx & Hy & Hz) H. injection H as <- <- <-.
  repeat split; now apply float_sub_sign.
Qed.




(* ------------------------------------------------------------------ *)

Lemma join_relative directory filename :
  directory <> EmptyString ->
  PosixPath.endswith PosixPath.sep directory = false ->
  PosixPath.startswith PosixPath.sep filename = false ->
  PosixPath.join directory filename = (directory ++ "/" ++ filename)%string.
Proof.
  intros Hne Hend Hrel. unfold PosixPath.join. rewrite Hrel, Hend.
  destruct directory; [congruence|reflexivity].
Qed.

(** C10.  [output_file_path] returns the join of the directory of the
    input file with the file name: for an input file [directory/file] and
    a relative file name it is [directory/filename]; for an input file
    [/file] in the root directory it is [/filename]; for an input file
    without directory part it is the file name; and when the file name is
    absolute (starts with the separator) the directory is dropped and the
    file name itself is returned, whatever the input file.  Hence, in a
    run that finds an intersection and can open the log of the write, an
    absolute [--out-step] is the path of the STEP file that is written,
    whatever the directory of the input file. *)
Theorem C10_output_file_path_join
        env argv shape plane result_shape directory file filename :
  (directory <> EmptyString ->
   PosixPath.endswith PosixPath.sep directory = false ->
   contains PosixPath.sep file = false ->
   PosixPath.startswith PosixPath.sep filename = false ->
   common_lib.output_file_path (directory ++ "/" ++ file) filename
   = (directory ++ "/" ++ filename)%string)
  /\ (contains PosixPath.sep file = false ->
      PosixPath.startswith PosixPath.sep filename = false ->
      common_lib.output_file_path ("/" ++ file) filename
      = ("/" ++ filename)%string)
  /\ (contains PosixPath.sep file = false ->
      PosixPath.startswith PosixPath.sep filename = false ->
      common_lib.output_file_path file filename = filename)
  /\ (forall input_file,
         PosixPath.startswith PosixPath.sep filename = true ->
         common_lib.output_file_path input_file filename = filename)
  /\ (os_path_isfile env (intersector.in_step argv) = true ->
      List.length (intersector.plane_values argv) = 6%nat ->
      fst (step_file_lib.find_intersection env (intersector.in_step argv)
             (firstn 3 (intersector.plane_values argv))
             (skipn 3 (intersector.plane_values argv)) [])
      = Ok (shape, plane, result_shape, true) ->
      PosixPath.startswith PosixPath.sep (intersector.output_filename argv)
      = true ->
      directory_exists env (dirname (intersector.output_filename argv)) = true ->
      step_writes (snd (intersector.main env argv []))
      = [intersector.output_filename argv]).
Proof.
  split; [|split; [|split; [|split]]].
  - intros Hne Hend Hfile Hrel.
    rewrite output_file_path_join.
    rewrite <- (join_relative directory file Hne Hend
                  (startswith_contains _ _ Hfile)).
    unfold dirname. rewrite split_join; [|now right|exact Hfile].
    cbn [fst]. now apply join_relative.
  - intros Hfile Hrel.
    rewrite output_file_path_join.
    assert (Hroot : ("/" ++ file)%string = PosixPath.join "/" file).
    { unfold PosixPath.join. now rewrite (startswith_contains _ _ Hfile). }
    rewrite Hroot. unfold dirname.
    rewrite split_join; [|now left|exact Hfile].
    cbn [fst]. unfold PosixPath.join. now rewrite Hrel.
  - intros Hfile Hrel.
    rewrite output_file_path_join. unfold dirname.
    rewrite (split_no_sep _ Hfile). cbn [fst].
    unfold PosixPath.join. now rewrite Hrel.
  - intros input_file Habs. rewrite output_file_path_join.
    now apply join_absolute.
  - intros Hfile Hsix Hfound Habs Hdir.
    assert (Hout : common_lib.output_file_path (intersector.in_step argv)
                     (intersector.output_filename argv)
                   = intersector.output_filename argv).
    { rewrite output_file_path_join. now apply join_absolute. }
    rewrite <- Hout in Hdir at 1.
    rewrite (main_run_found env argv shape plane result_shape
               Hfile Hsix Hfound Hdir).
    destruct (traces_frame _ _
                (find_intersection_traces env (intersector.in_step argv)
                   (firstn 3 (intersector.plane_values argv))
                   (skipn 3 (intersector.plane_values argv)))) as [Hquiet _].
    apply quiet_observations in Hquiet. destruct Hquiet as (_ & _ & Hwr).
    cbn [fst snd]. unfold step_writes in *. rewrite !observe_app, Hwr.
    rewrite Hout.
    destruct (Write env result_shape _ =? 1)%Z; reflexivity.
Qed.

(** With [--in-step /data/cube.stp]: a relative [section.stp] is
    [/data/section.stp]; the absolute [/tmp/out/section.stp] is itself,
    and it is where the section is written, outside [/data]. *)
Lemma C10_output_file_path_join_witness :
  common_lib.output_file_path "/data/cube.stp" "section.stp"
  = "/data/section.stp"
  /\ common_lib.output_file_path "/cube.stp" "section.stp" = "/section.stp"
  /\ common_lib.output_file_path "cube.stp" "section.stp" = "section.stp"
  /\ common_lib.output_file_path "/data/cube.stp" "/tmp/out/section.stp"
     = "/tmp/out/section.stp"
  /\ step_writes (snd (intersector.main Demo.env Demo.argv_abs_out []))
     = ["/tmp/out/section.stp"]
  /\ dirname "/tmp/out/section.stp" <> dirname "/data/cube.stp".
Proof.
  destruct (C10_output_file_path_join Demo.env Demo.argv_abs_out Demo.cube
              (mk_gp_Pln (mk_gp_Pnt 0 0 0) (mk_gp_Dir 0 0 1))
              Demo.square_section "/data" "cube.stp" "section.stp")
    as (Hrel & Hroot & Hbare & _ & _).
  destruct (C10_output_file_path_join Demo.env Demo.argv_abs_out Demo.cube
              (mk_gp_Pln (mk_gp_Pnt 0 0 0) (mk_gp_Dir 0 0 1))
              Demo.square_section "/data" "cube.stp" "/tmp/out/section.stp")
    as (_ & _ & _ & Habs & Hmain).
  split; [apply Hrel; [discriminate|reflexivity|reflexivity|reflexivity]|].
  split; [exact (Hroot eq_refl eq_refl)|].
  split; [exact (Hbare eq_refl eq_refl)|].
  split; [exact (Habs "/data/cube.stp" eq_refl)|].
  split; [exact (Hmain eq_refl eq_refl eq_refl eq_refl eq_refl)|].
  vm_compute. discriminate.
Defined.

(* ------------------------------------------------------------------ *)

(** C7, at an input where it fails.  With [--in-step /data/cube.stp] and
    [--out-step /tmp/out/section.stp] the run succeeds; the log of the
    loading, sectioning and rendering stages is [/data/lib_occ.log], in
    the directory of the input file, but the log of the final STEP write
    is [/tmp/out/lib_occ.log], in the directory of the output file. *)
Theorem C7_write_stage_logs_beside_output :
  let run := intersector.main Demo.env Demo.argv_abs_out [] in
  fst run = Ok tt
  /\ opened_logs (snd run)
     = [ "/data/lib_occ.log"; "/data/lib_occ.log"; "/data/lib_occ.log";
         "/data/lib_occ.log"; "/data/lib_occ.log"; "/data/lib_occ.log";
         "/tmp/out/lib_occ.log" ]
  /\ dirname "/data/cube.stp" = "/data"
  /\ dirname "/tmp/out/lib_occ.log" = "/tmp/out"
  /\ ~ Forall (fun log => dirname log = dirname "/data/cube.stp")
         (opened_logs (snd run)).
Proof.
  cbv zeta. split; [reflexivity|]. split; [reflexivity|].
  split; [reflexivity|]. split; [reflexivity|].
  intros Hall. rewrite Forall_forall in Hall.
  specialize (Hall "/tmp/out/lib_occ.log").
  assert (Hin : In "/tmp/out/lib_occ.log"
                  (opened_logs (snd (intersector.main Demo.env Demo.argv_abs_out [])))).
  { vm_compute. tauto. }
  specialize (Hall Hin). vm_compute in Hall. discriminate.
Qed.

(* ------------------------------------------------------------------ *)
(** ** The plane is built after the solid is loaded *)

Lemma traces_appends {A} P (m : M A) h :
  traces P m -> exists evs, snd (m h) = h ++ evs.
Proof. intros (r & evs & _ & Hm). exists evs. now rewrite Hm. Qed.

(** When the load fails, [find_intersection] fails with the error of the
    load, and nothing else happens. *)
Lemma find_intersection_load_fails env step_filename plane_point plane_normal e :
  fst (step_file_lib.read_step_geometry env step_filename []) = Raise e ->
  step_file_lib.find_intersection env step_filename plane_point plane_normal []
  = (Raise e, snd (step_file_lib.read_step_geometry env step_filename [])).
Proof.
  unfold step_file_lib.find_intersection, bind.
  destruct (step_file_lib.read_step_geometry env step_filename [])
    as [[shape|e'] h1]; simpl; intros H; [discriminate|].
  now injection H as ->.
Qed.

(** The log beside a file that exists can be opened. *)
Lemma log_opens env step_file :
  os_path_isfile env step_file = true ->
  directory_exists env
    (dirname (common_lib.output_file_path step_file step_file_lib.log_file))
  = true.
Proof.
  intros Hfile. rewrite dirname_log. now apply isfile_in_directory.
Qed.

(** [create_plane_point_normal] first calls [gp_Pnt], then [gp_Dir]. *)
Lemma create_plane_point_normal_history env x y z nx ny nz h :
  exists rest,
    snd (step_file_lib.create_plane_point_normal env [x; y; z] [nx; ny; nz] h)
    = h ++ EvKernel (K_gp_Pnt x y z) :: EvKernel (K_gp_Dir nx ny nz) :: rest.
Proof.
  unfold step_file_lib.create_plane_point_normal,
    step_file_lib.make_gp_Pnt, step_file_lib.make_gp_Dir,
    bind, call, emit, ret, raise.
  destruct (gp_Dir_raises env nx ny nz);
    eexists; simpl; rewrite <- !app_assoc; simpl; reflexivity.
Qed.

(** When the load succeeds, the next two kernel calls build the point
    from [plane_point] and the direction from [plane_normal]. *)
Lemma find_intersection_builds_plane env step_filename x y z nx ny nz shape :
  fst (step_file_lib.read_step_geometry env step_filename []) = Ok shape ->
  exists rest,
    snd (step_file_lib.find_intersection env step_filename
           [x; y; z] [nx; ny; nz] [])
    = snd (step_file_lib.read_step_geometry env step_filename [])
        ++ EvKernel (K_gp_Pnt x y z) :: EvKernel (K_gp_Dir nx ny nz) :: rest.
Proof.
  unfold step_file_lib.find_intersection.
  unfold bind at 1.
  destruct (step_file_lib.read_step_geometry env step_filename [])
    as [[shape0|e'] h1]; simpl; intros H; [|discriminate].
  unfold bind at 1.
  destruct (create_plane_point_normal_history env x y z nx ny nz h1)
    as [tail Htail].
  destruct (step_file_lib.create_plane_point_normal env [x; y; z] [nx; ny; nz] h1)
    as [[plane|e'] h2]; simpl in Htail; subst h2.
  - match goal with
    | |- exists rest, snd (?k ?h) = _ =>
        destruct (traces_appends quiet k h) as [evs Hevs]; [traces_auto|]
    end.
    rewrite Hevs. exists (tail ++ evs). rewrite <- !app_assoc. reflexivity.
  - exists tail. reflexivity.
Qed.

(** When the load succeeds and the kernel rejects the direction,
    [find_intersection] stops there. *)
Lemma find_intersection_rejected env step_filename x y z nx ny nz shape :
  fst (step_file_lib.read_step_geometry env step_filename []) = Ok shape ->
  gp_Dir_raises env nx ny nz = true ->
  step_file_lib.find_intersection env step_filename [x; y; z] [nx; ny; nz] []
  = (Raise (Standard_ConstructionError "gp_Dir() - input vector has zero norm"),
     snd (step_file_lib.read_step_geometry env step_filename [])
       ++ [EvKernel (K_gp_Pnt x y z); EvKernel (K_gp_Dir nx ny nz)]).
Proof.
  intros Hload Hraises.
  unfold step_file_lib.find_intersection.
  unfold bind at 1.
  destruct (step_file_lib.read_step_geometry env step_filename [])
    as [[shape0|e'] h1]; simpl in *; [|discriminate].
  unfold step_file_lib.create_plane_point_normal,
    step_file_lib.make_gp_Pnt, step_file_lib.make_gp_Dir.
  unfold bind, call, emit, ret, raise.
  rewrite Hraises. simpl.
  now rewrite <- app_assoc.
Qed.

(** The zero vector is rejected. *)
Lemma find_intersection_zero_normal env step_filename x y z (nx ny nz : Q) shape :
  fst (step_file_lib.read_step_geometry env step_filename []) = Ok shape ->
  nx == 0 -> ny == 0 -> nz == 0 ->
  step_file_lib.find_intersection env step_filename
    [x; y; z] [Finite nx; Finite ny; Finite nz] []
  = (Raise (Standard_ConstructionError "gp_Dir() - input vector has zero norm"),
     snd (step_file_lib.read_step_geometry env step_filename [])
       ++ [EvKernel (K_gp_Pnt x y z); EvKernel (K_gp_Dir nx ny nz)]).
Proof.
  intros Hload Hx Hy Hz.
  apply (find_intersection_rejected env step_filename x y z nx ny nz shape Hload).
  now apply gp_Dir_zero.
Qed.

(** C3 as stated fails: with the zero normal, the kernel has been called
    seven times when the run fails, and the solid of [/data/cube.stp] has
    been read and transferred. *)
Lemma C3_zero_normal_counterexample :
  let run := intersector.main Demo.env Demo.argv_zero_normal [] in
  skipn 3 (intersector.plane_values Demo.argv_zero_normal) = (map Finite [0; 0; 0])
  /\ fst run
     = Raise (Standard_ConstructionError "gp_Dir() - input vector has zero norm")
  /\ kernel_calls (snd run)
     = [ K_STEPControl_Reader; K_ReadFile "/data/cube.stp"; K_TransferRoots;
         K_OneShape; K_IsNull; K_gp_Pnt 0 0 0; K_gp_Dir 0 0 0 ]
  /\ kernel_calls (snd run) <> [].
Proof.
  cbv zeta. repeat split; try reflexivity. vm_compute. discriminate.
Qed.

(** C3 (amended).  For an existing STEP file and six plane numbers whose
    last three are zero: the solid is loaded first (the kernel's reader is
    created and [ReadFile] is called); if the load fails the run fails
    with the error of the load; otherwise the run fails with the kernel's
    [Standard_ConstructionError], raised by [gp_Dir] right after the load
    and the construction of the point, before any section, rendering or
    writing. *)
Theorem C3_zero_normal_rejected_after_load env argv x y z (nx ny nz : Q) :
  intersector.plane_values argv
  = [x; y; z; Finite nx; Finite ny; Finite nz] ->
  nx == 0 -> ny == 0 -> nz == 0 ->
  os_path_isfile env (intersector.in_step argv) = true ->
  let step_file := intersector.in_step argv in
  let load := step_file_lib.read_step_geometry env step_file [] in
  (exists n,
      kernel_calls (snd load)
      = K_STEPControl_Reader :: K_ReadFile step_file
          :: firstn n [K_TransferRoots; K_OneShape; K_IsNull])
  /\ intersector.main env argv []
     = match fst load with
       | Ok _ =>
           (Raise (Standard_ConstructionError
                     "gp_Dir() - input vector has zero norm"),
            [EvIsFile step_file] ++ snd load
              ++ [EvKernel (K_gp_Pnt x y z); EvKernel (K_gp_Dir nx ny nz)])
       | Raise e => (Raise e, [EvIsFile step_file] ++ snd load)
       end.
Proof.
  intros Hvalues Hx Hy Hz Hfile step_file load.
  split; [apply (read_step_geometry_calls env step_file []);
          now apply log_opens|].
  assert (Hsix : List.length (intersector.plane_values argv) = 6%nat).
  { now rewrite Hvalues. }
  destruct (fst load) as [shape|e] eqn:Hload; unfold load in Hload.
  - pose proof (find_intersection_zero_normal env step_file x y z nx ny nz
                  shape Hload Hx Hy Hz) as Hfind.
    rewrite (main_run_raises env argv
               (Standard_ConstructionError "gp_Dir() - input vector has zero norm")
               Hfile Hsix).
    + rewrite Hvalues. simpl firstn. simpl skipn.
      fold step_file. rewrite Hfind. reflexivity.
    + rewrite Hvalues. simpl firstn. simpl skipn.
      fold step_file. now rewrite Hfind.
  - pose proof (find_intersection_load_fails env step_file
                  (firstn 3 (intersector.plane_values argv))
                  (skipn 3 (intersector.plane_values argv)) e Hload) as Hfind.
    rewrite (main_run_raises env argv e Hfile Hsix).
    + fold step_file. rewrite Hfind. reflexivity.
    + fold step_file. now rewrite Hfind.
Qed.

(** The zero normal on [/data/cube.stp]: the failure comes from [gp_Dir],
    after the five kernel calls of the load. *)
Lemma C3_zero_normal_rejected_after_load_witness :
  intersector.main Demo.env Demo.argv_zero_normal []
  = (Raise (Standard_ConstructionError "gp_Dir() - input vector has zero norm"),
     [EvIsFile "/data/cube.stp"]
       ++ snd (step_file_lib.read_step_geometry Demo.env "/data/cube.stp" [])
       ++ [EvKernel (K_gp_Pnt 0 0 0); EvKernel (K_gp_Dir 0 0 0)]).
Proof.
  destruct (C3_zero_normal_rejected_after_load Demo.env Demo.argv_zero_normal
              0 0 0 0 0 0 eq_refl (Qeq_refl 0) (Qeq_refl 0) (Qeq_refl 0) eq_refl)
    as [_ Hrun].
  exact Hrun.
Defined.

(* ------------------------------------------------------------------ *)

(** In a run on an existing file with six plane values, the history
    starts with the file check and the events of [find_intersection]. *)
Lemma main_run_extends_find_intersection env argv :
  os_path_isfile env (intersector.in_step argv) = true ->
  List.length (intersector.plane_values argv) = 6%nat ->
  exists rest,
    snd (intersector.main env argv [])
    = [EvIsFile (intersector.in_step argv)]
        ++ snd (step_file_lib.find_intersection env (intersector.in_step argv)
                  (firstn 3 (intersector.plane_values argv))
                  (skipn 3 (intersector.plane_values argv)) [])
        ++ rest.
Proof.
  intros Hfile Hsix.
  destruct (fst (step_file_lib.find_intersection env (intersector.in_step argv)
                   (firstn 3 (intersector.plane_values argv))
                   (skipn 3 (intersector.plane_values argv)) []))
    as [[[[shape plane] result_shape] [|]]|e] eqn:Hfound.
  - destruct (directory_exists env
                (dirname (common_lib.output_file_path (intersector.in_step argv)
                            (intersector.output_filename argv)))) eqn:Hdir.
    + rewrite (main_run_found env argv _ _ _ Hfile Hsix Hfound Hdir).
      eexists. cbn [snd]. reflexivity.
    + rewrite (main_run_found_unwritten env argv _ _ _ Hfile Hsix Hfound Hdir).
      eexists. cbn [snd]. reflexivity.
  - rewrite (main_run_empty env argv _ _ _ Hfile Hsix Hfound).
    eexists. cbn [snd]. reflexivity.
  - rewrite (main_run_raises env argv _ Hfile Hsix Hfound).
    exists []. cbn [snd]. now rewrite app_nil_r.
Qed.

(** C6 as stated fails: with five numbers for the plane and a STEP path
    that names no file, the run fails in the file check with [OSError],
    not with the [ArgumentTypeError] of the plane. *)
Lemma C6_missing_file_counterexample :
  let run := intersector.main Demo.env Demo.argv_five_missing [] in
  List.length (intersector.plane_values Demo.argv_five_missing) = 5%nat
  /\ run = (Raise (OSError "File does not exist: /data/missing.stp"),
            [EvIsFile "/data/missing.stp"])
  /\ fst run <> Raise (ArgumentTypeError intersector.in_plane_error).
Proof.
  cbv zeta. split; [reflexivity|]. split; [reflexivity|].
  vm_compute. discriminate.
Qed.

(** C6 (amended).  When [argparse] refuses what follows [--in-plane] (no
    value, or a token it does not convert to a float), the run ends with
    its [SystemExit(2)]: before anything else when [--in-plane] comes
    first on the command line, after the file check when [--in-step]
    comes first and names a file.  Otherwise the argument parser checks
    that the STEP path names a file; if it does not, the run fails there
    with [OSError], whatever the plane.  If it does and the plane has
    fewer or more than six numbers (at least one), the run fails with
    [ArgumentTypeError], and that file check is all that has happened:
    the file has not been read, no log has been opened, the kernel has
    not been called.  With exactly six numbers and a solid that loads,
    the kernel builds the point from the first three and the direction
    from the last three. *)
Theorem C6_plane_count_checked_after_file_check env argv :
  let step_file := intersector.in_step argv in
  let run := intersector.main env argv [] in
  (intersector.plane_values argv = [] ->
   intersector.refused_first argv = true ->
   run = (Raise (SystemExit 2), []))
  /\ (intersector.plane_values argv = [] ->
      intersector.refused_first argv = false ->
      os_path_isfile env step_file = true ->
      run = (Raise (SystemExit 2), [EvIsFile step_file]))
  /\ (os_path_isfile env step_file = false ->
      (intersector.plane_values argv = [] ->
       intersector.refused_first argv = false) ->
      run = (Raise (OSError ("File does not exist: " ++ step_file)%string),
             [EvIsFile step_file]))
  /\ (os_path_isfile env step_file = true ->
      intersector.plane_values argv <> [] ->
      List.length (intersector.plane_values argv) <> 6%nat ->
      run = (Raise (ArgumentTypeError intersector.in_plane_error),
             [EvIsFile step_file])
      /\ kernel_calls (snd run) = [] /\ opened_logs (snd run) = [])
  /\ (forall a b c d e f shape,
         os_path_isfile env step_file = true ->
         intersector.plane_values argv = [a; b; c; d; e; f] ->
         fst (step_file_lib.read_step_geometry env step_file []) = Ok shape ->
         exists rest,
           kernel_calls (snd run)
           = kernel_calls (snd (step_file_lib.read_step_geometry env step_file []))
               ++ K_gp_Pnt a b c :: K_gp_Dir d e f :: rest).
Proof.
  intros step_file run. split; [|split; [|split; [|split]]].
  - apply main_run_refused_first.
  - apply main_run_refused.
  - apply main_run_missing.
  - intros Hfile Hne Hlen. unfold run.
    rewrite (main_run_bad_count env argv Hfile Hne Hlen).
    repeat split.
  - intros a b c d e f shape Hfile Hvalues Hload.
    assert (Hsix : List.length (intersector.plane_values argv) = 6%nat).
    { now rewrite Hvalues. }
    destruct (main_run_extends_find_intersection env argv Hfile Hsix)
      as [rest Hrun].
    unfold run.
    rewrite Hrun, Hvalues. simpl firstn. simpl skipn. fold step_file.
    destruct (find_intersection_builds_plane env step_file a b c d e f shape Hload)
      as [rest' Hfind].
    rewrite Hfind. unfold kernel_calls. rewrite !observe_app. simpl.
    rewrite <- app_assoc. simpl. eexists. reflexivity.
Qed.

(** [--in-plane] without a value, before and after [--in-step]; five
    numbers on a missing file; five numbers on [/data/cube.stp]; and the
    six numbers of scenario A. *)
Lemma C6_plane_count_checked_after_file_check_witness :
  intersector.main Demo.env Demo.argv_no_plane_first []
  = (Raise (SystemExit 2), [])
  /\ intersector.main Demo.env Demo.argv_no_plane []
     = (Raise (SystemExit 2), [EvIsFile "/data/cube.stp"])
  /\ intersector.main Demo.env Demo.argv_five_missing []
     = (Raise (OSError "File does not exist: /data/missing.stp"),
        [EvIsFile "/data/missing.stp"])
  /\ intersector.main Demo.env Demo.argv_five []
     = (Raise (ArgumentTypeError intersector.in_plane_error),
        [EvIsFile "/data/cube.stp"])
  /\ (exists rest,
         kernel_calls (snd (intersector.main Demo.env Demo.argv_A []))
         = kernel_calls
             (snd (step_file_lib.read_step_geometry Demo.env "/data/cube.stp" []))
             ++ K_gp_Pnt 0 0 0 :: K_gp_Dir 0 0 1 :: rest).
Proof.
  destruct (C6_plane_count_checked_after_file_check Demo.env
              Demo.argv_no_plane_first) as (Hfirst & _).
  destruct (C6_plane_count_checked_after_file_check Demo.env Demo.argv_no_plane)
    as (_ & Hnone & _).
  destruct (C6_plane_count_checked_after_file_check Demo.env Demo.argv_five_missing)
    as (_ & _ & Hmissing & _).
  destruct (C6_plane_count_checked_after_file_check Demo.env Demo.argv_five)
    as (_ & _ & _ & Hfive & _).
  destruct (C6_plane_count_checked_after_file_check Demo.env Demo.argv_A)
    as (_ & _ & _ & _ & Hsix).
  split; [exact (Hfirst eq_refl eq_refl)|].
  split; [exact (Hnone eq_refl eq_refl eq_refl)|].
  split; [apply (Hmissing eq_refl); vm_compute; discriminate|].
  split.
  - refine (proj1 (Hfive eq_refl _ _)); vm_compute; discriminate.
  - exact (Hsix 0 0 0 0 0 1 Demo.cube eq_refl eq_refl eq_refl).
Defined.

(* ================================================================== *)
(** * Further properties of the libraries and of [main] *)

(* ------------------------------------------------------------------ *)
(** ** [read_step_geometry] *)

Ltac run_program :=
  unfold step_file_lib.find_intersection, step_file_lib.read_step_geometry,
    step_file_lib.create_plane_point_normal, step_file_lib.make_gp_Pnt,
    step_file_lib.make_gp_Dir, common_lib.redirect_output,
    bind, call, print, emit, ret, raise;
  cbv beta iota zeta.

Ltac list_calls :=
  unfold kernel_calls; repeat rewrite observe_app; simpl;
  repeat rewrite <- app_assoc; simpl.

(** When the log beside the STEP file cannot be opened,
    [read_step_geometry] fails before it calls the kernel. *)
Lemma read_step_geometry_closed env step_filename h :
  directory_exists env
    (dirname (common_lib.output_file_path step_filename step_file_lib.log_file))
  = false ->
  step_file_lib.read_step_geometry env step_filename h
  = (Raise (FileNotFoundError
              ("[Errno 2] No such file or directory: '"
                 ++ common_lib.output_file_path step_filename
                      step_file_lib.log_file
                 ++ "'")%string),
     h).
Proof.
  intros Hopen. run_program. rewrite Hopen. reflexivity.
Qed.

Lemma read_step_geometry_ok_iff env step_filename h shape :
  fst (step_file_lib.read_step_geometry env step_filename h) = Ok shape
  <-> (ReadFile env step_filename = 1%Z
       /\ TransferRoots env step_filename <> 0%Z
       /\ OneShape env step_filename = Some shape).
Proof.
  destruct (directory_exists env
              (dirname (common_lib.output_file_path step_filename
                          step_file_lib.log_file))) eqn:Hopen.
  2:{ rewrite (read_step_geometry_closed _ _ _ Hopen). cbn [fst].
      split; [discriminate|]. intros (Hread & _).
      apply ReadFile_in_directory in Hread.
      rewrite dirname_log in Hopen. congruence. }
  run_program. rewrite Hopen. cbv beta iota zeta.
  destruct (ReadFile env step_filename =? 1)%Z eqn:Hread;
    cbv beta iota delta [negb].
  - apply Z.eqb_eq in Hread.
    destruct (TransferRoots env step_filename =? 0)%Z eqn:Hroots; cbv beta iota.
    + apply Z.eqb_eq in Hroots. simpl. split; [discriminate|].
      intros (_ & Hne & _). contradiction.
    + apply Z.eqb_neq in Hroots.
      destruct (OneShape env step_filename) as [s|]; simpl.
      * split.
        -- intros H. injection H as ->. auto.
        -- intros (_ & _ & H). injection H as ->. reflexivity.
      * split; [discriminate|]. intros (_ & _ & H). discriminate.
  - apply Z.eqb_neq in Hread. simpl. split; [discriminate|].
    intros (H & _). contradiction.
Qed.

(** X1.  [read_step_geometry] returns a shape exactly when [ReadFile]
    answers 1, [TransferRoots] transfers at least one root and
    [OneShape] is not the null shape; the shape returned is the one
    [OneShape] gives. *)
Theorem X1_read_step_geometry_succeeds_iff env step_filename h shape :
  fst (step_file_lib.read_step_geometry env step_filename h) = Ok shape
  <-> (ReadFile env step_filename = 1%Z
       /\ TransferRoots env step_filename <> 0%Z
       /\ OneShape env step_filename = Some shape).
Proof.
  split.
  - apply read_step_geometry_ok_iff.
  - intros (Hstatus & Hroots & Hshape). apply Z.eqb_neq in Hroots.
    assert (Hopen : directory_exists env
                      (dirname (common_lib.output_file_path step_filename
                                  step_file_lib.log_file)) = true).
    { rewrite dirname_log. now apply ReadFile_in_directory. }
    run_program. rewrite Hopen, Hstatus, Hroots, Hshape. reflexivity.
Qed.

(** The cube of the demo platform loads. *)
Lemma X1_read_step_geometry_succeeds_iff_witness :
  fst (step_file_lib.read_step_geometry Demo.env "/data/cube.stp" [])
  = Ok Demo.cube.
Proof.
  apply (X1_read_step_geometry_succeeds_iff Demo.env "/data/cube.stp" [] Demo.cube).
  repeat split. vm_compute. discriminate.
Defined.

(** X2.  When [read_step_geometry] fails it is in one of four ways, and
    it stops where it failed: the log beside the STEP file cannot be
    opened (FileNotFoundError, the kernel is not called); a [ReadFile]
    status other than 1 (the error names the file, nothing is
    transferred); no root transferred ([OneShape] is not called); or a
    null shape, found by [IsNull] after [OneShape]. *)
Theorem X2_read_step_geometry_failures env step_filename e :
  fst (step_file_lib.read_step_geometry env step_filename []) = Raise e ->
  let output_log :=
    common_lib.output_file_path step_filename step_file_lib.log_file in
  let calls :=
    kernel_calls (snd (step_file_lib.read_step_geometry env step_filename [])) in
  (directory_exists env (dirname output_log) = false
   /\ e = FileNotFoundError
            ("[Errno 2] No such file or directory: '" ++ output_log ++ "'")%string
   /\ calls = [])
  \/ (directory_exists env (dirname output_log) = true
      /\ ReadFile env step_filename <> 1%Z
      /\ e = RuntimeError ("Failed to read STEP file: " ++ step_filename)%string
      /\ calls = [K_STEPControl_Reader; K_ReadFile step_filename])
  \/ (ReadFile env step_filename = 1%Z
      /\ TransferRoots env step_filename = 0%Z
      /\ e = RuntimeError "Failed to transfer STEP file contents."
      /\ calls = [K_STEPControl_Reader; K_ReadFile step_filename;
                  K_TransferRoots])
  \/ (ReadFile env step_filename = 1%Z
      /\ TransferRoots env step_filename <> 0%Z
      /\ OneShape env step_filename = None
      /\ e = RuntimeError "STEP file contains no geometry."
      /\ calls = [K_STEPControl_Reader; K_ReadFile step_filename;
                  K_TransferRoots; K_OneShape; K_IsNull]).
Proof.
  cbv zeta.
  destruct (directory_exists env
              (dirname (common_lib.output_file_path step_filename
                          step_file_lib.log_file))) eqn:Hopen.
  2:{ rewrite (read_step_geometry_closed _ _ _ Hopen). cbn [fst snd].
      intros H. injection H as <-. left. repeat split. }
  run_program. rewrite Hopen. cbv beta iota zeta.
  destruct (ReadFile env step_filename =? 1)%Z eqn:Hread;
    cbv beta iota delta [negb].
  - apply Z.eqb_eq in Hread.
    destruct (TransferRoots env step_filename =? 0)%Z eqn:Hroots; cbv beta iota.
    + apply Z.eqb_eq in Hroots. simpl. intros H. injection H as <-.
      right. right. left. repeat split; assumption.
    + apply Z.eqb_neq in Hroots.
      destruct (OneShape env step_filename) as [s|]; simpl; [discriminate|].
      intros H. injection H as <-.
      right. right. right. repeat split; assumption.
  - apply Z.eqb_neq in Hread. simpl. intros H. injection H as <-.
    right. left. repeat split; assumption.
Qed.

(** [/data/broken.stp] is read with status 2; the log of
    [/nodir/cube.stp] cannot be opened; and [/data/cube.stp] on a
    platform that transfers no root, and on one that gives the null
    shape. *)
Lemma X2_read_step_geometry_failures_witness :
  (fst (step_file_lib.read_step_geometry Demo.env "/data/broken.stp" [])
   = Raise (RuntimeError "Failed to read STEP file: /data/broken.stp")
   /\ kernel_calls
        (snd (step_file_lib.read_step_geometry Demo.env "/data/broken.stp" []))
      = [K_STEPControl_Reader; K_ReadFile "/data/broken.stp"])
  /\ (fst (step_file_lib.read_step_geometry Demo.env "/nodir/cube.stp" [])
      = Raise (FileNotFoundError
                 "[Errno 2] No such file or directory: '/nodir/lib_occ.log'")
      /\ kernel_calls
           (snd (step_file_lib.read_step_geometry Demo.env "/nodir/cube.stp" []))
         = [])
  /\ kernel_calls
       (snd (step_file_lib.read_step_geometry DemoVariants.env_no_roots
               "/data/cube.stp" []))
     = [K_STEPControl_Reader; K_ReadFile "/data/cube.stp"; K_TransferRoots]
  /\ kernel_calls
       (snd (step_file_lib.read_step_geometry DemoVariants.env_null_shape
               "/data/cube.stp" []))
     = [K_STEPControl_Reader; K_ReadFile "/data/cube.stp"; K_TransferRoots;
        K_OneShape; K_IsNull].
Proof.
  split; [|split; [|split]].
  3:{ destruct (X2_read_step_geometry_failures DemoVariants.env_no_roots
                  "/data/cube.stp"
                  (RuntimeError "Failed to transfer STEP file contents.")
                  eq_refl)
        as [(Hopen & _)|[(_ & Hread & _)|[(_ & _ & _ & Hcalls)|(_ & Hroots & _)]]].
      - vm_compute in Hopen. discriminate.
      - exfalso. apply Hread. reflexivity.
      - exact Hcalls.
      - exfalso. apply Hroots. reflexivity. }
  3:{ destruct (X2_read_step_geometry_failures DemoVariants.env_null_shape
                  "/data/cube.stp"
                  (RuntimeError "STEP file contains no geometry.")
                  eq_refl)
        as [(Hopen & _)|[(_ & Hread & _)|[(_ & Hroots & _)
           |(_ & _ & _ & _ & Hcalls)]]].
      - vm_compute in Hopen. discriminate.
      - exfalso. apply Hread. reflexivity.
      - vm_compute in Hroots. discriminate.
      - exact Hcalls. }
  - destruct (X2_read_step_geometry_failures Demo.env "/data/broken.stp"
                (RuntimeError "Failed to read STEP file: /data/broken.stp")
                eq_refl)
      as [(Hopen & _)|[(_ & _ & _ & Hcalls)|[(Hread & _)|(Hread & _)]]].
    + vm_compute in Hopen. discriminate.
    + split; [reflexivity|exact Hcalls].
    + vm_compute in Hread. discriminate.
    + vm_compute in Hread. discriminate.
  - destruct (X2_read_step_geometry_failures Demo.env "/nodir/cube.stp"
                (FileNotFoundError
                   "[Errno 2] No such file or directory: '/nodir/lib_occ.log'")
                eq_refl)
      as [(_ & _ & Hcalls)|[(Hopen & _)|[(Hread & _)|(Hread & _)]]].
    + split; [reflexivity|exact Hcalls].
    + vm_compute in Hopen. discriminate.
    + vm_compute in Hread. discriminate.
    + vm_compute in Hread. discriminate.
Defined.

(* ------------------------------------------------------------------ *)
(** ** [find_intersection] *)

Lemma find_intersection_ok_iff
      env step_filename x y z nx ny nz h shape plane result_shape result :
  fst (step_file_lib.find_intersection env step_filename
         [x; y; z] [nx; ny; nz] h)
  = Ok (shape, plane, result_shape, result)
  <-> (fst (step_file_lib.read_step_geometry env step_filename h) = Ok shape
       /\ gp_Dir_raises env nx ny nz = false
       /\ plane = mk_gp_Pln (mk_gp_Pnt x y z) (mk_gp_Dir nx ny nz)
       /\ Section_IsDone env shape plane = true
       /\ result_shape = Section_Shape env shape plane
       /\ result = More (TopExp_Explorer result_shape TopAbs_EDGE)).
Proof.
  pose proof (read_step_geometry_opens env step_filename h) as Hopen.
  unfold step_file_lib.find_intersection. unfold bind at 1.
  destruct (step_file_lib.read_step_geometry env step_filename h)
    as [[shape0|e] h1]; cbn [fst].
  2:{ split; [discriminate|]. intros (H & _). discriminate. }
  specialize (Hopen shape0 eq_refl).
  unfold step_file_lib.create_plane_point_normal, step_file_lib.make_gp_Pnt,
    step_file_lib.make_gp_Dir, common_lib.redirect_output,
    bind, call, print, emit, ret, raise.
  cbv beta iota zeta.
  destruct (gp_Dir_raises env nx ny nz) eqn:Hraises.
  { simpl. split; [discriminate|]. intros (_ & Hnz & _). discriminate. }
  cbv beta iota. rewrite Hopen. cbv beta iota zeta.
  destruct (Section_IsDone env shape0
              (mk_gp_Pln (mk_gp_Pnt x y z) (mk_gp_Dir nx ny nz))) eqn:Hdone;
    cbv beta iota delta [negb]; simpl.
  - split.
    + intros H. injection H as <- <- <- <-.
      repeat split; try assumption. now destruct (More _).
    + intros (H & _ & -> & _ & -> & ->). injection H as ->.
      now destruct (More _).
  - split; [discriminate|].
    intros (H & _ & -> & Hd & _). injection H as ->. congruence.
Qed.

(** X3.  On a point and a normal of three coordinates,
    [find_intersection] returns exactly when the solid loads, the kernel
    accepts the normal as a direction and the section completes; it then
    returns the loaded solid, the plane through the given point with the
    given normal, the shape of the section and the result of the edge
    exploration of that shape. *)
Theorem X3_find_intersection_succeeds_iff
        env step_filename x y z nx ny nz h shape plane result_shape result :
  fst (step_file_lib.find_intersection env step_filename
         [x; y; z] [nx; ny; nz] h)
  = Ok (shape, plane, result_shape, result)
  <-> (fst (step_file_lib.read_step_geometry env step_filename h) = Ok shape
       /\ gp_Dir_raises env nx ny nz = false
       /\ plane = mk_gp_Pln (mk_gp_Pnt x y z) (mk_gp_Dir nx ny nz)
       /\ Section_IsDone env shape plane = true
       /\ result_shape = Section_Shape env shape plane
       /\ result = More (TopExp_Explorer result_shape TopAbs_EDGE)).
Proof.
  split.
  - apply find_intersection_ok_iff.
  - intros (Hload & Hraises & -> & Hdone & -> & ->).
    pose proof (read_step_geometry_opens env step_filename h _ Hload) as Hopen.
    unfold step_file_lib.find_intersection. unfold bind at 1.
    destruct (step_file_lib.read_step_geometry env step_filename h)
      as [[shape0|e] h1]; cbn [fst] in Hload; [|discriminate].
    injection Hload as ->.
    unfold step_file_lib.create_plane_point_normal, step_file_lib.make_gp_Pnt,
      step_file_lib.make_gp_Dir, common_lib.redirect_output,
      bind, call, print, emit, ret, raise.
    cbv beta iota zeta. rewrite Hraises. cbv beta iota.
    rewrite Hopen. cbv beta iota zeta. rewrite Hdone.
    cbv beta iota delta [negb fst].
    now destruct (More _).
Qed.

(** Scenario A on the demo platform. *)
Lemma X3_find_intersection_succeeds_iff_witness :
  fst (step_file_lib.find_intersection Demo.env "/data/cube.stp"
         (map Finite [0; 0; 0]) (map Finite [0; 0; 1]) [])
  = Ok (Demo.cube, mk_gp_Pln (mk_gp_Pnt 0 0 0) (mk_gp_Dir 0 0 1),
        Demo.square_section, true).
Proof.
  apply (X3_find_intersection_succeeds_iff Demo.env "/data/cube.stp"
           0 0 0 0 0 1 [] Demo.cube _ Demo.square_section true).
  repeat split.
Defined.

(** X4.  When the solid loads and the plane is built but the section
    does not complete ([IsDone] is false), [find_intersection] raises
    its RuntimeError; the section was requested with the curves on the
    first shape and the approximation switched on, and the kernel is
    asked neither for the shape of the section nor for an exploration. *)
Theorem X4_find_intersection_section_not_done
        env step_filename x y z nx ny nz shape :
  fst (step_file_lib.read_step_geometry env step_filename []) = Ok shape ->
  gp_Dir_raises env nx ny nz = false ->
  let plane := mk_gp_Pln (mk_gp_Pnt x y z) (mk_gp_Dir nx ny nz) in
  Section_IsDone env shape plane = false ->
  let run := step_file_lib.find_intersection env step_filename
               [x; y; z] [nx; ny; nz] [] in
  fst run
  = Raise (RuntimeError
             "Failed to compute intersection between plane and geometry.")
  /\ kernel_calls (snd run)
     = firstn 13 (find_intersection_calls step_filename shape plane shape)
  /\ ~ In K_Section_Shape (kernel_calls (snd run))
  /\ (forall S ToFind, ~ In (K_TopExp_Explorer S ToFind) (kernel_calls (snd run))).
Proof.
  intros Hload Hraises plane Hdone run.
  pose proof (read_step_geometry_opens env step_filename [] _ Hload) as Hopen.
  assert (Hread : ReadFile env step_filename = 1%Z
                  /\ TransferRoots env step_filename <> 0%Z
                  /\ OneShape env step_filename = Some shape).
  { now apply (read_step_geometry_ok_iff env step_filename []). }
  destruct Hread as (Hstatus & Hroots & Hshape).
  apply Z.eqb_neq in Hroots.
  assert (Hrun : run
    = (Raise (RuntimeError
                "Failed to compute intersection between plane and geometry."),
       snd run)
    /\ kernel_calls (snd run)
       = firstn 13 (find_intersection_calls step_filename shape plane shape)).
  { unfold run. run_program.
    rewrite Hopen, Hstatus, Hroots, Hshape, Hraises.
    cbv beta iota zeta delta [Z.eqb Pos.eqb negb].
    fold plane. rewrite Hdone.
    cbv beta iota delta [negb]. split; reflexivity. }
  destruct Hrun as [Hrun Hcalls].
  split; [now rewrite Hrun|]. split; [exact Hcalls|].
  rewrite Hcalls. simpl. split.
  - intros H. repeat (destruct H as [H|H]; [discriminate|]). exact H.
  - intros S ToFind H. repeat (destruct H as [H|H]; [discriminate|]). exact H.
Qed.

(** The cube on a platform whose section algorithm does not complete. *)
Lemma X4_find_intersection_section_not_done_witness :
  fst (step_file_lib.find_intersection DemoVariants.env_section_fails
         "/data/cube.stp" (map Finite [0; 0; 0]) (map Finite [0; 0; 1]) [])
  = Raise (RuntimeError
             "Failed to compute intersection between plane and geometry.").
Proof.
  exact (proj1 (X4_find_intersection_section_not_done
                  DemoVariants.env_section_fails "/data/cube.stp"
                  0 0 0 0 0 1 Demo.cube eq_refl eq_refl eq_refl)).
Defined.

(** X5.  A call of [find_intersection] on a point and a normal of three
    coordinates that returns has made exactly
    these sixteen kernel calls, in this order: the reader and its three
    calls, [IsNull] on the shape, the point, the direction and the
    plane, the section with its two options and [Build], [IsDone], the
    shape of the section, the exploration of its edges and [More].  The
    STEP file is read once. *)
Theorem X5_find_intersection_call_sequence
        env step_filename x y z nx ny nz
        shape plane result_shape result :
  fst (step_file_lib.find_intersection env step_filename
         [x; y; z] [nx; ny; nz] [])
  = Ok (shape, plane, result_shape, result) ->
  kernel_calls
    (snd (step_file_lib.find_intersection env step_filename
            [x; y; z] [nx; ny; nz] []))
  = find_intersection_calls step_filename shape plane result_shape
  /\ List.length
       (find_intersection_calls step_filename shape plane result_shape)
     = 16%nat
  /\ flat_map (fun k => match k with K_ReadFile p => [p] | _ => [] end)
       (find_intersection_calls step_filename shape plane result_shape)
     = [step_filename].
Proof.
  intros Hrun.
  destruct (proj1 (find_intersection_ok_iff _ _ _ _ _ _ _ _ _ _ _ _ _) Hrun)
    as (Hload & Hraises & Hplane & Hdone & Hrs & _).
  pose proof (read_step_geometry_opens env step_filename [] _ Hload) as Hopen.
  destruct (proj1 (read_step_geometry_ok_iff _ _ _ _) Hload)
    as (Hstatus & Hroots & Hshape).
  apply Z.eqb_neq in Hroots.
  subst plane result_shape. clear Hrun Hload.
  split; [|split; reflexivity].
  run_program.
  rewrite Hopen, Hstatus, Hroots, Hshape, Hraises.
  cbv beta iota zeta delta [Z.eqb Pos.eqb negb].
  rewrite Hdone. cbv beta iota delta [negb].
  reflexivity.
Qed.

(** Scenario A: sixteen kernel calls, one of them [ReadFile]. *)
Lemma X5_find_intersection_call_sequence_witness :
  kernel_calls
    (snd (step_file_lib.find_intersection Demo.env "/data/cube.stp"
            (map Finite [0; 0; 0]) (map Finite [0; 0; 1]) []))
  = find_intersection_calls "/data/cube.stp" Demo.cube
      (mk_gp_Pln (mk_gp_Pnt 0 0 0) (mk_gp_Dir 0 0 1)) Demo.square_section.
Proof.
  exact (proj1 (X5_find_intersection_call_sequence Demo.env "/data/cube.stp"
                  0 0 0 0 0 1 Demo.cube
                  (mk_gp_Pln (mk_gp_Pnt 0 0 0) (mk_gp_Dir 0 0 1))
                  Demo.square_section true eq_refl)).
Defined.

(** X6.  Whatever its arguments and its outcome, [find_intersection]
    builds no face, exports no image and writes no STEP file. *)
Theorem X6_find_intersection_produces_no_output
        env step_filename plane_point plane_normal h :
  exists evs,
    snd (step_file_lib.find_intersection env step_filename
           plane_point plane_normal h) = h ++ evs
    /\ faces_made evs = []
    /\ exported_images evs = []
    /\ step_writes evs = [].
Proof.
  destruct (find_intersection_traces env step_filename plane_point plane_normal)
    as (r & evs & Hquiet & Hrun).
  exists evs. rewrite Hrun. split; [reflexivity|].
  now apply quiet_observations.
Qed.

(* ------------------------------------------------------------------ *)
(** ** Repeated calls of [find_intersection] *)





(* ------------------------------------------------------------------ *)
(** ** Redirections along a run *)

Lemma redirect_scope_app c h1 h2 :
  redirect_scope c (h1 ++ h2)
  = match redirect_scope c h1 with
    | Some c' => redirect_scope c' h2
    | None => None
    end.
Proof.
  revert c. induction h1 as [|e h1 IH]; intros c; [reflexivity|].
  destruct e as [p|p|p|k|m]; simpl.
  - apply IH.
  - destruct c; [reflexivity|apply IH].
  - destruct c as [log|]; [|reflexivity].
    destruct (String.eqb p log); [apply IH|reflexivity].
  - apply IH.
  - destruct c; [reflexivity|apply IH].
Qed.

Lemma redirect_scope_plain c evs :
  Forall plain evs -> redirect_scope c evs = Some c.
Proof.
  induction 1 as [|e evs He _ IH]; [reflexivity|].
  destruct e; simpl in *; try contradiction; exact IH.
Qed.

Lemma scoped_ret {A} (a : A) : scoped (ret a).
Proof.
  exists (Ok a), []. split; [reflexivity|].
  intros h. unfold ret. now rewrite app_nil_r.
Qed.

Lemma scoped_raise {A} e : scoped (@raise A e).
Proof.
  exists (Raise e), []. split; [reflexivity|].
  intros h. unfold raise. now rewrite app_nil_r.
Qed.

Lemma scoped_call c : scoped (call c).
Proof. exists (Ok tt), [EvKernel c]. split; reflexivity. Qed.

Lemma scoped_print msg : scoped (print msg).
Proof. exists (Ok tt), [EvPrint msg]. split; reflexivity. Qed.

Lemma scoped_isfile path : scoped (emit (EvIsFile path)).
Proof. exists (Ok tt), [EvIsFile path]. split; reflexivity. Qed.

Lemma scoped_bind {A B} (m : M A) (k : A -> M B) :
  scoped m -> (forall a, scoped (k a)) -> scoped (bind m k).
Proof.
  intros (r & evs & Hevs & Hm) Hk.
  destruct r as [a|e].
  - destruct (Hk a) as (r2 & evs2 & Hevs2 & Hka).
    exists r2, (evs ++ evs2). split.
    + now rewrite redirect_scope_app, Hevs.
    + intros h. unfold bind. rewrite Hm, Hka. now rewrite app_assoc.
  - exists (Raise e), evs. split; [assumption|].
    intros h. unfold bind. now rewrite Hm.
Qed.

(** A redirection around a body that neither redirects nor prints is
    closed when the body ends, with a value or with an exception. *)
Lemma scoped_redirect {A} env log (body : M A) :
  traces plain body -> scoped (common_lib.redirect_output env log body).
Proof.
  intros (r & evs & Hevs & Hbody).
  unfold scoped, common_lib.redirect_output.
  destruct (directory_exists env (dirname log)).
  - exists r, (EvRedirect log :: evs ++ [EvRestore log]). split.
    + simpl. rewrite redirect_scope_app, (redirect_scope_plain _ _ Hevs).
      simpl. now rewrite String.eqb_refl.
    + intros h. rewrite Hbody.
      f_equal. rewrite <- !app_assoc. reflexivity.
  - eexists _, []. split; [reflexivity|].
    intros h. now rewrite app_nil_r.
Qed.

Ltac scoped_step :=
  match goal with
  | |- scoped (bind _ _) => apply scoped_bind; [|intros ?]
  | |- scoped (ret _) => apply scoped_ret
  | |- scoped (raise _) => apply scoped_raise
  | |- scoped (call _) => apply scoped_call
  | |- scoped (print _) => apply scoped_print
  | |- scoped (emit (EvIsFile _)) => apply scoped_isfile
  | |- scoped (common_lib.redirect_output _ _ _) =>
      apply scoped_redirect; traces_auto
  | |- scoped (if ?b then _ else _) => destruct b
  | |- scoped (match ?x with _ => _ end) => destruct x
  end.

Lemma main_scoped env argv : scoped (intersector.main env argv).
Proof.
  unfold intersector.main, intersector.parse_args, intersector.parse_in_plane,
    common_lib.check_file,
    step_file_lib.find_intersection, step_file_lib.read_step_geometry,
    step_file_lib.create_plane_point_normal, step_file_lib.make_gp_Pnt,
    step_file_lib.make_gp_Dir, step_file_lib.write_step_geometry,
    step_file_lib.compute_dimensions, step_file_lib.combine_geometry_plane,
    step_file_lib.create_face, step_file_lib.plot_geometry.
  repeat scoped_step.
Qed.

(** X7.  In every run of [main], whatever its outcome: a redirection is
    never opened inside another one, each [redirect_output] is closed by
    the restore of the same log, the run ends with output back on the
    terminal, and every [print] of the program happens while output is on
    the terminal (no message of the program goes to the log). *)
Theorem X7_main_redirections_are_scoped env argv :
  redirect_scope None (snd (intersector.main env argv [])) = Some None.
Proof.
  destruct (main_scoped env argv) as (r & evs & Hevs & Hrun).
  rewrite Hrun. exact Hevs.
Qed.

(* ------------------------------------------------------------------ *)
(** ** The outcomes of [main] *)

(** The eight ways a run of [main] goes. *)
Lemma main_run_cases env argv :
  let step_file := intersector.in_step argv in
  let found := fst (step_file_lib.find_intersection env step_file
                      (firstn 3 (intersector.plane_values argv))
                      (skipn 3 (intersector.plane_values argv)) []) in
  let output_file :=
    common_lib.output_file_path step_file (intersector.output_filename argv) in
  (intersector.plane_values argv = []
   /\ intersector.refused_first argv = true)
  \/ (intersector.plane_values argv = []
      /\ intersector.refused_first argv = false
      /\ os_path_isfile env step_file = true)
  \/ (os_path_isfile env step_file = false
      /\ (intersector.plane_values argv = []
          -> intersector.refused_first argv = false))
  \/ (os_path_isfile env step_file = true
      /\ intersector.plane_values argv <> []
      /\ List.length (intersector.plane_values argv) <> 6%nat)
  \/ (os_path_isfile env step_file = true
      /\ List.length (intersector.plane_values argv) = 6%nat
      /\ exists e, found = Raise e)
  \/ (os_path_isfile env step_file = true
      /\ List.length (intersector.plane_values argv) = 6%nat
      /\ exists shape plane result_shape,
           found = Ok (shape, plane, result_shape, false))
  \/ (os_path_isfile env step_file = true
      /\ List.length (intersector.plane_values argv) = 6%nat
      /\ exists shape plane result_shape,
           found = Ok (shape, plane, result_shape, true)
           /\ directory_exists env (dirname output_file) = false)
  \/ (os_path_isfile env step_file = true
      /\ List.length (intersector.plane_values argv) = 6%nat
      /\ exists shape plane result_shape,
           found = Ok (shape, plane, result_shape, true)
           /\ directory_exists env (dirname output_file) = true).
Proof.
  cbv zeta.
  destruct (intersector.plane_values argv) as [|v values] eqn:Hvalues.
  { destruct (intersector.refused_first argv); [now left|].
    destruct (os_path_isfile env (intersector.in_step argv)).
    - right. left. repeat split.
    - do 2 right. left. split; reflexivity. }
  rewrite <- Hvalues.
  assert (Hne : intersector.plane_values argv <> []).
  { rewrite Hvalues. discriminate. }
  destruct (os_path_isfile env (intersector.in_step argv)).
  2:{ do 2 right. left. split; [reflexivity|]. intros H. contradiction. }
  destruct (Nat.eq_dec (List.length (intersector.plane_values argv)) 6)
    as [Hsix|Hlen]; [|do 3 right; left; now repeat split].
  destruct (fst (step_file_lib.find_intersection _ _ _ _ _))
    as [[[[shape plane] result_shape] [|]]|e].
  - destruct (directory_exists env
                (dirname (common_lib.output_file_path (intersector.in_step argv)
                            (intersector.output_filename argv)))) eqn:Hdir.
    + do 7 right. repeat split; try assumption.
      exists shape, plane, result_shape. now split.
    + do 6 right. left. repeat split; try assumption.
      exists shape, plane, result_shape. now split.
  - do 5 right. left. repeat split; try assumption.
    now exists shape, plane, result_shape.
  - do 4 right. left. repeat split; try assumption. now exists e.
Qed.

(** X8.  A run of [main] produces nothing (no image exported, no STEP
    file written), or the image alone, or both outputs: the image beside
    the input file and the STEP file at the output path.  It produces
    an output only when [find_intersection] has returned the flag
    [True], and the image alone only when the log beside the output file
    cannot be opened: the run then fails with FileNotFoundError before
    the STEP writer is called. *)
Theorem X8_main_output_cases env argv :
  let step_file := intersector.in_step argv in
  let output_file :=
    common_lib.output_file_path step_file (intersector.output_filename argv) in
  let found :=
    fst (step_file_lib.find_intersection env step_file
           (firstn 3 (intersector.plane_values argv))
           (skipn 3 (intersector.plane_values argv)) []) in
  let run := intersector.main env argv [] in
  (exported_images (snd run) = [] /\ step_writes (snd run) = [])
  \/ (exported_images (snd run) = [png_path step_file]
      /\ step_writes (snd run) = []
      /\ directory_exists env (dirname output_file) = false
      /\ fst run
         = Raise (FileNotFoundError
                    ("[Errno 2] No such file or directory: '"
                       ++ common_lib.output_file_path output_file "lib_occ.log"
                       ++ "'")%string)
      /\ exists shape plane result_shape,
           found = Ok (shape, plane, result_shape, true))
  \/ (exported_images (snd run) = [png_path step_file]
      /\ step_writes (snd run) = [output_file]
      /\ directory_exists env (dirname output_file) = true
      /\ exists shape plane result_shape,
           found = Ok (shape, plane, result_shape, true)).
Proof.
  cbv zeta.
  destruct (traces_frame _ _
              (find_intersection_traces env (intersector.in_step argv)
                 (firstn 3 (intersector.plane_values argv))
                 (skipn 3 (intersector.plane_values argv)))) as [Hquiet _].
  apply quiet_observations in Hquiet. destruct Hquiet as (_ & Himg & Hwr).
  destruct (main_run_cases env argv)
    as [(Hnone & Hfirst)|[(Hnone & Hfirst & Hfile)|[(Hfile & Horder)
       |[(Hfile & Hne & Hlen)|[(Hfile & Hsix & e & Hfound)
       |[(Hfile & Hsix & s & pl & rs & Hfound)
       |[(Hfile & Hsix & s & pl & rs & Hfound & Hdir)
        |(Hfile & Hsix & s & pl & rs & Hfound & Hdir)]]]]]]].
  - left. rewrite (main_run_refused_first env argv Hnone Hfirst).
    split; reflexivity.
  - left. rewrite (main_run_refused env argv Hnone Hfirst Hfile).
    split; reflexivity.
  - left. rewrite (main_run_missing env argv Hfile Horder). split; reflexivity.
  - left. rewrite (main_run_bad_count env argv Hfile Hne Hlen).
    split; reflexivity.
  - left. rewrite (main_run_raises env argv e Hfile Hsix Hfound).
    cbn [snd]. unfold exported_images, step_writes in *.
    rewrite !observe_app, Himg, Hwr. split; reflexivity.
  - left. rewrite (main_run_empty env argv s pl rs Hfile Hsix Hfound).
    cbn [snd]. unfold exported_images, step_writes in *.
    rewrite !observe_app, Himg, Hwr. split; reflexivity.
  - right. left.
    rewrite (main_run_found_unwritten env argv s pl rs Hfile Hsix Hfound Hdir).
    cbn [fst snd]. unfold exported_images, step_writes in *.
    rewrite !observe_app, Himg, Hwr.
    split; [reflexivity|]. split; [reflexivity|]. split; [exact Hdir|].
    split; [reflexivity|]. now exists s, pl, rs.
  - right. right.
    rewrite (main_run_found env argv s pl rs Hfile Hsix Hfound Hdir).
    cbn [snd]. unfold exported_images, step_writes in *.
    rewrite !observe_app, Himg, Hwr.
    split; [|split; [|split]].
    + destruct (Write env rs _ =? 1)%Z; reflexivity.
    + destruct (Write env rs _ =? 1)%Z; reflexivity.
    + exact Hdir.
    + now exists s, pl, rs.
Qed.

(** [--out-step /nodir/section.stp]: the image [/data/cube.png] is
    exported, then the log [/nodir/lib_occ.log] cannot be opened and no
    STEP file is written. *)
Lemma X8_main_output_cases_witness :
  let run := intersector.main Demo.env Demo.argv_no_out_dir [] in
  exported_images (snd run) = ["/data/cube.png"]
  /\ step_writes (snd run) = []
  /\ fst run
     = Raise (FileNotFoundError
                "[Errno 2] No such file or directory: '/nodir/lib_occ.log'").
Proof.
  destruct (X8_main_output_cases Demo.env Demo.argv_no_out_dir)
    as [(Himg & _)|[(Himg & Hwr & _ & Hraise & _)|(_ & _ & Hdir & _)]].
  - vm_compute in Himg. discriminate.
  - cbv zeta. split; [exact Himg|]. split; [exact Hwr|exact Hraise].
  - vm_compute in Hdir. discriminate.
Defined.

(** X9.  [main] returns normally exactly when the STEP path names a
    file, the plane has six numbers, [find_intersection] returns, and,
    if it returns the flag [True], the STEP write has status 1. *)
Theorem X9_main_returns_iff env argv :
  let step_file := intersector.in_step argv in
  fst (intersector.main env argv []) = Ok tt
  <-> (os_path_isfile env step_file = true
       /\ List.length (intersector.plane_values argv) = 6%nat
       /\ exists shape plane result_shape result,
            fst (step_file_lib.find_intersection env step_file
                   (firstn 3 (intersector.plane_values argv))
                   (skipn 3 (intersector.plane_values argv)) [])
            = Ok (shape, plane, result_shape, result)
            /\ (result = true ->
                Write env result_shape
                  (common_lib.output_file_path step_file
                     (intersector.output_filename argv)) = 1%Z)).
Proof.
  cbv zeta.
  destruct (main_run_cases env argv)
    as [(Hnone & Hfirst)|[(Hnone & Hfirst & Hfile)|[(Hfile & Horder)
       |[(Hfile & Hne & Hlen)|[(Hfile & Hsix & e & Hfound)
       |[(Hfile & Hsix & s & pl & rs & Hfound)
       |[(Hfile & Hsix & s & pl & rs & Hfound & Hdir)
        |(Hfile & Hsix & s & pl & rs & Hfound & Hdir)]]]]]]].
  - rewrite (main_run_refused_first env argv Hnone Hfirst). cbn [fst].
    split; [discriminate|]. intros (_ & H & _). rewrite Hnone in H.
    discriminate.
  - rewrite (main_run_refused env argv Hnone Hfirst Hfile). cbn [fst].
    split; [discriminate|]. intros (_ & H & _). rewrite Hnone in H.
    discriminate.
  - rewrite (main_run_missing env argv Hfile Horder). cbn [fst].
    split; [discriminate|]. intros (H & _). congruence.
  - rewrite (main_run_bad_count env argv Hfile Hne Hlen). cbn [fst].
    split; [discriminate|]. intros (_ & H & _). contradiction.
  - rewrite (main_run_raises env argv e Hfile Hsix Hfound). cbn [fst].
    split; [discriminate|].
    intros (_ & _ & s & pl & rs & r & H & _). congruence.
  - rewrite (main_run_empty env argv s pl rs Hfile Hsix Hfound). cbn [fst].
    split; [|reflexivity]. intros _. repeat split; try assumption.
    exists s, pl, rs, false. split; [assumption|discriminate].
  - rewrite (main_run_found_unwritten env argv s pl rs Hfile Hsix Hfound Hdir).
    cbn [fst]. split; [discriminate|].
    intros (_ & _ & s' & pl' & rs' & r' & H & Hw).
    rewrite Hfound in H. injection H as <- <- <- <-.
    specialize (Hw eq_refl). apply Write_in_directory in Hw. congruence.
  - rewrite (main_run_found env argv s pl rs Hfile Hsix Hfound Hdir). cbn [fst].
    destruct (Write env rs _ =? 1)%Z eqn:Hstatus.
    + apply Z.eqb_eq in Hstatus. split; [|reflexivity].
      intros _. repeat split; try assumption.
      exists s, pl, rs, true. split; [assumption|]. intros _. exact Hstatus.
    + apply Z.eqb_neq in Hstatus. split; [discriminate|].
      intros (_ & _ & s' & pl' & rs' & r' & H & Hw).
      rewrite Hfound in H. injection H as <- <- <- <-.
      exfalso. apply Hstatus. now apply Hw.
Qed.

(** Scenario A returns normally. *)
Lemma X9_main_returns_iff_witness :
  fst (intersector.main Demo.env Demo.argv_A []) = Ok tt.
Proof.
  apply (X9_main_returns_iff Demo.env Demo.argv_A).
  split; [reflexivity|]. split; [reflexivity|].
  exists Demo.cube, (mk_gp_Pln (mk_gp_Pnt 0 0 0) (mk_gp_Dir 0 0 1)),
    Demo.square_section, true.
  split; reflexivity.
Defined.

(** X10.  In a run that finds an intersection and whose STEP write has
    status 1, the image is exported, then the STEP file is written, and
    the run ends with two messages: the first names the value of
    [--out-step] as it was given (not the path the file was written to),
    the second the path of the image. *)
Theorem X10_main_success_outputs_and_messages
        env argv shape plane result_shape :
  os_path_isfile env (intersector.in_step argv) = true ->
  List.length (intersector.plane_values argv) = 6%nat ->
  fst (step_file_lib.find_intersection env (intersector.in_step argv)
         (firstn 3 (intersector.plane_values argv))
         (skipn 3 (intersector.plane_values argv)) [])
  = Ok (shape, plane, result_shape, true) ->
  let output_file :=
    common_lib.output_file_path (intersector.in_step argv)
      (intersector.output_filename argv) in
  Write env result_shape output_file = 1%Z ->
  let run := intersector.main env argv [] in
  let output_png := png_path (intersector.in_step argv) in
  fst run = Ok tt
  /\ (exists before,
         snd run
         = before
             ++ [EvPrint ("Intersection found and written to: "
                            ++ intersector.output_filename argv)%string;
                 EvPrint ("A png file with the geometry and the plane has been written to: "
                            ++ output_png)%string]
         /\ exported_images before = [output_png]
         /\ step_writes before = [output_file]).
Proof.
  intros Hfile Hsix Hfound output_file Hstatus run output_png. unfold run.
  pose proof (Write_in_directory env _ _ Hstatus) as Hdir.
  rewrite (main_run_found env argv shape plane result_shape
             Hfile Hsix Hfound Hdir).
  fold output_file. apply Z.eqb_eq in Hstatus. rewrite Hstatus.
  destruct (traces_frame _ _
              (find_intersection_traces env (intersector.in_step argv)
                 (firstn 3 (intersector.plane_values argv))
                 (skipn 3 (intersector.plane_values argv)))) as [Hquiet _].
  apply quiet_observations in Hquiet. destruct Hquiet as (_ & Himg & Hwr).
  cbn [fst snd]. split; [reflexivity|].
  eexists. split; [|split].
  - rewrite !app_assoc. reflexivity.
  - unfold exported_images in *. rewrite !observe_app, Himg. reflexivity.
  - unfold step_writes in *. rewrite !observe_app, Hwr. reflexivity.
Qed.

(** Scenario A: the first message names [intersection.stp], the file
    is [/data/intersection.stp]. *)
Lemma X10_main_success_outputs_and_messages_witness :
  fst (intersector.main Demo.env Demo.argv_A []) = Ok tt
  /\ exists before,
       snd (intersector.main Demo.env Demo.argv_A [])
       = before
           ++ [EvPrint "Intersection found and written to: intersection.stp";
               EvPrint "A png file with the geometry and the plane has been written to: /data/cube.png"]
       /\ exported_images before = ["/data/cube.png"]
       /\ step_writes before = ["/data/intersection.stp"].
Proof.
  exact (X10_main_success_outputs_and_messages Demo.env Demo.argv_A Demo.cube
           (mk_gp_Pln (mk_gp_Pnt 0 0 0) (mk_gp_Dir 0 0 1)) Demo.square_section
           eq_refl eq_refl eq_refl eq_refl).
Defined.

(* ------------------------------------------------------------------ *)
(** ** Where the logs go *)

Ltac logs_step :=
  match goal with
  | |- traces _ (bind _ _) => apply traces_bind; [|intros ?]
  | |- traces _ (ret _) => apply traces_ret
  | |- traces _ (raise _) => apply traces_raise
  | |- traces _ (call _) => apply traces_emit; exact I
  | |- traces _ (print _) => apply traces_emit; exact I
  | |- traces _ (common_lib.redirect_output _ _ _) =>
      apply traces_redirect; [reflexivity | reflexivity |]
  | |- traces _ (if ?b then _ else _) => destruct b
  | |- traces _ (match ?x with _ => _ end) => destruct x
  end.

Lemma find_intersection_logs env step_filename plane_point plane_normal :
  traces (logs_to (common_lib.output_file_path step_filename "lib_occ.log"))
    (step_file_lib.find_intersection env step_filename plane_point plane_normal).
Proof.
  unfold step_file_lib.find_intersection, step_file_lib.read_step_geometry,
    step_file_lib.create_plane_point_normal, step_file_lib.make_gp_Pnt,
    step_file_lib.make_gp_Dir.
  repeat logs_step.
Qed.

Lemma opened_logs_to log evs :
  Forall (logs_to log) evs -> Forall (eq log) (opened_logs evs).
Proof.
  induction 1 as [|e evs He _ IH]; [constructor|].
  unfold opened_logs in *. simpl.
  destruct e; simpl in *; try exact IH.
  constructor; [now symmetry|exact IH].
Qed.

Lemma main_logs env argv :
  let step_file := intersector.in_step argv in
  let input_log := common_lib.output_file_path step_file "lib_occ.log" in
  let write_log :=
    common_lib.output_file_path
      (common_lib.output_file_path step_file (intersector.output_filename argv))
      "lib_occ.log" in
  exists logs,
    Forall (eq input_log) logs
    /\ (opened_logs (snd (intersector.main env argv [])) = logs
        \/ opened_logs (snd (intersector.main env argv [])) = logs ++ [write_log]).
Proof.
  cbv zeta.
  destruct (traces_frame _ _
              (find_intersection_logs env (intersector.in_step argv)
                 (firstn 3 (intersector.plane_values argv))
                 (skipn 3 (intersector.plane_values argv)))) as [Hlogs _].
  apply opened_logs_to in Hlogs.
  destruct (main_run_cases env argv)
    as [(Hnone & Hfirst)|[(Hnone & Hfirst & Hfile)|[(Hfile & Horder)
       |[(Hfile & Hne & Hlen)|[(Hfile & Hsix & e & Hfound)
       |[(Hfile & Hsix & s & pl & rs & Hfound)
       |[(Hfile & Hsix & s & pl & rs & Hfound & Hdir)
        |(Hfile & Hsix & s & pl & rs & Hfound & Hdir)]]]]]]].
  - rewrite (main_run_refused_first env argv Hnone Hfirst).
    exists []. split; [constructor|now left].
  - rewrite (main_run_refused env argv Hnone Hfirst Hfile).
    exists []. split; [constructor|now left].
  - rewrite (main_run_missing env argv Hfile Horder).
    exists []. split; [constructor|now left].
  - rewrite (main_run_bad_count env argv Hfile Hne Hlen).
    exists []. split; [constructor|now left].
  - rewrite (main_run_raises env argv e Hfile Hsix Hfound).
    set (evs := snd (step_file_lib.find_intersection _ _ _ _ _)) in *.
    exists (opened_logs evs). split; [exact Hlogs|]. left.
    cbn [snd]. unfold opened_logs. rewrite !observe_app. reflexivity.
  - rewrite (main_run_empty env argv s pl rs Hfile Hsix Hfound).
    set (evs := snd (step_file_lib.find_intersection _ _ _ _ _)) in *.
    exists (opened_logs evs). split; [exact Hlogs|]. left.
    cbn [snd]. unfold opened_logs. rewrite !observe_app. simpl.
    now rewrite app_nil_r.
  - rewrite (main_run_found_unwritten env argv s pl rs Hfile Hsix Hfound Hdir).
    set (evs := snd (step_file_lib.find_intersection _ _ _ _ _)) in *.
    exists (opened_logs evs
              ++ [common_lib.output_file_path (intersector.in_step argv)
                    "lib_occ.log"]).
    split; [apply Forall_app; split; [exact Hlogs|repeat constructor]|].
    left. cbn [snd]. unfold opened_logs. rewrite !observe_app. reflexivity.
  - rewrite (main_run_found env argv s pl rs Hfile Hsix Hfound Hdir).
    set (evs := snd (step_file_lib.find_intersection _ _ _ _ _)) in *.
    exists (opened_logs evs
              ++ [common_lib.output_file_path (intersector.in_step argv)
                    "lib_occ.log"]).
    split; [apply Forall_app; split; [exact Hlogs|repeat constructor]|].
    right. cbn [snd]. unfold opened_logs. rewrite !observe_app.
    destruct (Write env rs _ =? 1)%Z; simpl; rewrite <- ?app_assoc;
      reflexivity.
Qed.

(** X11.  In every run of [main] each log opened by [redirect_output]
    is [lib_occ.log] in the directory of the input STEP file or
    [lib_occ.log] in the directory of the output file, and only the last
    log opened can be other than the one beside the input file. *)
Theorem X11_main_logs_beside_input_until_write env argv :
  let step_file := intersector.in_step argv in
  let input_log := common_lib.output_file_path step_file "lib_occ.log" in
  let write_log :=
    common_lib.output_file_path
      (common_lib.output_file_path step_file (intersector.output_filename argv))
      "lib_occ.log" in
  let logs := opened_logs (snd (intersector.main env argv [])) in
  Forall (fun log => log = input_log \/ log = write_log) logs
  /\ Forall (eq input_log) (removelast logs).
Proof.
  cbv zeta. destruct (main_logs env argv) as (logs & Hlogs & [Hrun|Hrun]);
    rewrite Hrun.
  - split.
    + refine (Forall_impl _ _ Hlogs). intros log H; cbv beta; left; now symmetry.
    + clear Hrun. induction Hlogs as [|log logs Hlog Hlogs IH]; [constructor|].
      destruct logs as [|log' logs]; [constructor|].
      constructor; [exact Hlog|exact IH].
  - split.
    + apply Forall_app. split.
      * refine (Forall_impl _ _ Hlogs). intros log H; cbv beta; left; now symmetry.
      * constructor; [now right|constructor].
    + now rewrite removelast_last.
Qed.

(* ------------------------------------------------------------------ *)
(** ** Paths beside the input file *)

(** X12.  With a [--out-step] that has no separator (a bare file name,
    the default [intersection.stp] included), every log of the run, the
    one of the STEP write too, is [lib_occ.log] in the directory of the
    input STEP file. *)
Theorem X12_main_logs_beside_input_for_bare_out_step env argv :
  contains PosixPath.sep (intersector.output_filename argv) = false ->
  Forall (eq (common_lib.output_file_path (intersector.in_step argv) "lib_occ.log"))
    (opened_logs (snd (intersector.main env argv []))).
Proof.
  intros Hbare. destruct (main_logs env argv) as (logs & Hlogs & [Hrun|Hrun]);
    rewrite Hrun; [exact Hlogs|].
  apply Forall_app. split; [exact Hlogs|].
  rewrite (output_file_path_beside _ _ _ Hbare). repeat constructor.
Qed.

(** Scenario A, with the default [--out-step]: seven logs, all
    [/data/lib_occ.log]. *)
Lemma X12_main_logs_beside_input_for_bare_out_step_witness :
  Forall (eq "/data/lib_occ.log")
    (opened_logs (snd (intersector.main Demo.env Demo.argv_A [])))
  /\ List.length (opened_logs (snd (intersector.main Demo.env Demo.argv_A [])))
     = 7%nat.
Proof.
  split; [|reflexivity].
  exact (X12_main_logs_beside_input_for_bare_out_step Demo.env Demo.argv_A
           eq_refl).
Defined.

(** X13.  For a file name without separator, the path that
    [output_file_path] builds splits back into the directory of the input
    file and the file name; and a path built beside such an output is a
    path beside the input. *)
Theorem X13_output_file_path_beside_input input_file filename other :
  contains PosixPath.sep filename = false ->
  PosixPath.split (common_lib.output_file_path input_file filename)
  = (dirname input_file, filename)
  /\ common_lib.output_file_path
       (common_lib.output_file_path input_file filename) other
     = common_lib.output_file_path input_file other.
Proof.
  intros Hf. split.
  - now apply output_file_path_split.
  - now apply output_file_path_beside.
Qed.

Lemma X13_output_file_path_beside_input_witness :
  PosixPath.split (common_lib.output_file_path "/data/cube.stp" "intersection.stp")
  = ("/data", "intersection.stp")
  /\ common_lib.output_file_path
       (common_lib.output_file_path "/data/cube.stp" "intersection.stp")
       "lib_occ.log"
     = "/data/lib_occ.log".
Proof.
  exact (X13_output_file_path_beside_input "/data/cube.stp" "intersection.stp"
           "lib_occ.log" eq_refl).
Defined.

(* ------------------------------------------------------------------ *)
(** ** The path of the image *)

(** X14.  Whatever the STEP path, the image is written in the directory
    of the STEP file: its path splits into that directory and a file
    name, the file name of the STEP path with its extension replaced by
    [.png]. *)
Theorem X14_image_beside_input step_file :
  PosixPath.split (png_path step_file)
  = (dirname step_file, (stem step_file ++ ".png")%string)
  /\ dirname (png_path step_file) = dirname step_file.
Proof.
  split; [apply png_path_split|].
  unfold dirname at 1. now rewrite png_path_split.
Qed.

Lemma all_char_false_nonempty c s :
  PosixPath.all_char c s = false -> s <> EmptyString.
Proof. intros H ->. discriminate. Qed.

Lemma splitext_last_dot root ext :
  contains PosixPath.sep (root ++ String PosixPath.extsep ext) = false ->
  PosixPath.all_char PosixPath.extsep root = false ->
  contains PosixPath.extsep ext = false ->
  PosixPath.splitext (root ++ String PosixPath.extsep ext)
  = (root, String PosixPath.extsep ext).
Proof.
  intros Hsep Hroot Hext. unfold PosixPath.splitext.
  rewrite (rfind_absent _ _ Hsep), (rfind_last _ _ _ Hext).
  replace (-1 <? Z.of_nat (String.length root))%Z with true
    by (symmetry; apply Z.ltb_lt; lia).
  unfold PosixPath.slice. simpl Z.add. simpl (Z.to_nat 0).
  rewrite Nat2Z.id, Nat.sub_0_r, substring_prefix, Hroot.
  cbv beta iota delta [andb negb].
  now rewrite slice_to_prefix, slice_from_suffix.
Qed.

(** X15.  When the file name of the STEP path is [root.ext], where
    [ext] has no dot and [root] is not made of dots only, the image is
    [root.png] in the directory of the STEP file. *)
Theorem X15_image_named_after_step_file step_file root ext :
  snd (PosixPath.split step_file) = (root ++ String PosixPath.extsep ext)%string ->
  PosixPath.all_char PosixPath.extsep root = false ->
  contains PosixPath.extsep ext = false ->
  png_path step_file
  = PosixPath.join (dirname step_file) (root ++ ".png")%string.
Proof.
  intros Hname Hroot Hext.
  unfold png_path. rewrite output_file_path_join. f_equal.
  rewrite Hname, splitext_last_dot; try assumption; [reflexivity|].
  rewrite <- Hname. apply split_tail_no_sep.
Qed.

(** [/data/run.2/cube.v1.stp] gives [/data/run.2/cube.v1.png]. *)
Lemma X15_image_named_after_step_file_witness :
  png_path "/data/run.2/cube.v1.stp" = "/data/run.2/cube.v1.png".
Proof.
  exact (X15_image_named_after_step_file "/data/run.2/cube.v1.stp"
           "cube.v1" "stp" eq_refl eq_refl eq_refl).
Defined.

(* ------------------------------------------------------------------ *)
(** ** The extent *)

(** X16.  When the bounding box is ordered (each minimum below the
    corresponding maximum) the three spans and the extent are not
    negative, so the patch [[-extent, extent]] is not inverted. *)
Theorem X16_extent_not_negative env shape dx dy dz :
  box_ordered env shape ->
  spans env shape = (dx, dy, dz) ->
  0 <= dx /\ 0 <= dy /\ 0 <= dz
  /\ 0 <= extent env shape
  /\ - extent env shape <= extent env shape.
Proof.
  intros Hbox Hs.
  destruct (spans_not_negative _ _ _ _ _ Hbox Hs) as (Hx & Hy & Hz).
  unfold extent. rewrite Hs.
  destruct (max3_is_max dx dy dz) as (_ & Ha & _ & _). cbv zeta in Ha.
  repeat split; lra.
Qed.

Lemma X16_extent_not_negative_witness :
  0 <= extent Demo.env Demo.box
  /\ - extent Demo.env Demo.box <= extent Demo.env Demo.box.
Proof.
  destruct (X16_extent_not_negative Demo.env Demo.box (1 - 0) (2 - 0) (3 - 0))
    as (_ & _ & _ & H0 & H1); [|reflexivity|split; assumption].
  vm_compute. repeat split; discriminate.
Defined.

(** X18.  The extent does not depend on which axis carries which span:
    two solids whose spans are the same up to a permutation of the axes
    have the same extent. *)
Theorem X18_extent_axis_symmetric env shape env' shape' dx dy dz dx' dy' dz' :
  spans env shape = (dx, dy, dz) ->
  spans env' shape' = (dx', dy', dz') ->
  Permutation [dx; dy; dz] [dx'; dy'; dz'] ->
  extent env' shape' == extent env shape.
Proof.
  intros Hs Hs' Hperm. unfold extent. rewrite Hs, Hs'.
  destruct (max3_is_max dx dy dz) as (Hone & Ha & Hb & Hc). cbv zeta in *.
  set (m := intersector.max3 dx dy dz) in *.
  assert (Hbound : forall q, In q [dx'; dy'; dz'] -> q <= m).
  { intros q Hq. apply (Permutation_in _ (Permutation_sym Hperm)) in Hq.
    destruct Hq as [<-|[<-|[<-|[]]]]; assumption. }
  assert (Hin : In m [dx'; dy'; dz']).
  { apply (Permutation_in _ Hperm).
    destruct Hone as [H|[H|H]]; symmetry in H; simpl; tauto. }
  apply max3_unique.
  - destruct Hin as [<-|[<-|[<-|[]]]];
      [left|right; left|right; right]; reflexivity.
  - apply Hbound. simpl. tauto.
  - apply Hbound. simpl. tauto.
  - apply Hbound. simpl. tauto.
Qed.

(** The box of spans 1, 2, 3 and the box of spans 3, 1, 2: extent 3. *)
Lemma X18_extent_axis_symmetric_witness :
  extent DemoVariants.env_turned Demo.box == extent Demo.env Demo.box.
Proof.
  apply (X18_extent_axis_symmetric Demo.env Demo.box
           DemoVariants.env_turned Demo.box
           (1 - 0) (2 - 0) (3 - 0) (3 - 0) (1 - 0) (2 - 0) eq_refl eq_refl).
  exact (perm_trans (perm_skip (1 - 0) (perm_swap (3 - 0) (2 - 0) []))
                    (perm_swap (3 - 0) (1 - 0) [2 - 0])).
Defined.

(* ------------------------------------------------------------------ *)
(** ** Failures of [find_intersection] in [main] *)

(** X19.  [main] lets every exception of [find_intersection] through
    unchanged: the run ends with that exception, right after the events
    of [find_intersection], with nothing rendered, written or printed by
    [main] itself, so without any output. *)
Theorem X19_main_propagates_find_intersection_errors env argv e :
  os_path_isfile env (intersector.in_step argv) = true ->
  List.length (intersector.plane_values argv) = 6%nat ->
  fst (step_file_lib.find_intersection env (intersector.in_step argv)
         (firstn 3 (intersector.plane_values argv))
         (skipn 3 (intersector.plane_values argv)) [])
  = Raise e ->
  let run := intersector.main env argv [] in
  run
  = (Raise e,
     [EvIsFile (intersector.in_step argv)]
       ++ snd (step_file_lib.find_intersection env (intersector.in_step argv)
                 (firstn 3 (intersector.plane_values argv))
                 (skipn 3 (intersector.plane_values argv)) []))
  /\ faces_made (snd run) = []
  /\ exported_images (snd run) = []
  /\ step_writes (snd run) = [].
Proof.
  intros Hfile Hsix Hfound run. unfold run.
  rewrite (main_run_raises env argv e Hfile Hsix Hfound).
  split; [reflexivity|].
  destruct (traces_frame _ _
              (find_intersection_traces env (intersector.in_step argv)
                 (firstn 3 (intersector.plane_values argv))
                 (skipn 3 (intersector.plane_values argv)))) as [Hquiet _].
  apply quiet_observations in Hquiet. destruct Hquiet as (Hf & Himg & Hwr).
  cbn [snd]. unfold faces_made, exported_images, step_writes in *.
  rewrite !observe_app, Hf, Himg, Hwr. repeat split.
Qed.

(** A STEP file read with status 2: [main] fails with the error of the
    load. *)
Lemma X19_main_propagates_find_intersection_errors_witness :
  fst (intersector.main Demo.env
         (Demo.argv "/data/broken.stp" (0, [0; 0; 0; 0; 1]) None) [])
  = Raise (RuntimeError "Failed to read STEP file: /data/broken.stp").
Proof.
  destruct (X19_main_propagates_find_intersection_errors Demo.env
              (Demo.argv "/data/broken.stp" (0, [0; 0; 0; 0; 1]) None)
              (RuntimeError "Failed to read STEP file: /data/broken.stp")
              eq_refl eq_refl eq_refl) as [Hrun _].
  cbv zeta in Hrun. now rewrite Hrun.
Defined.

(* ------------------------------------------------------------------ *)
(** ** The kernel calls the log does not capture *)

Lemma unlogged_calls_app c h1 h2 c' :
  redirect_scope c h1 = Some c' ->
  unlogged_calls (is_redirected c) (h1 ++ h2)
  = unlogged_calls (is_redirected c) h1 ++ unlogged_calls (is_redirected c') h2.
Proof.
  revert c. induction h1 as [|e h1 IH]; intros c H.
  - simpl in H. injection H as <-. reflexivity.
  - destruct e as [p|p|p|k|m]; simpl in *.
    + now apply IH.
    + destruct c; [discriminate|]. exact (IH (Some p) H).
    + destruct c as [log|]; [|discriminate].
      destruct (String.eqb p log); [|discriminate]. exact (IH None H).
    + rewrite (IH c H). now rewrite app_assoc.
    + destruct c; [discriminate|]. exact (IH None H).
Qed.

Lemma unlogged_calls_plain evs :
  Forall plain evs -> unlogged_calls true evs = [].
Proof.
  induction 1 as [|e evs He _ IH]; [reflexivity|].
  destruct e; simpl in *; try contradiction; exact IH.
Qed.

Lemma captured_ret {A} (a : A) : captured (ret a).
Proof.
  exists (Ok a), []. split; [reflexivity|]. split; [constructor|].
  intros h. unfold ret. now rewrite app_nil_r.
Qed.

Lemma captured_raise {A} e : captured (@raise A e).
Proof.
  exists (Raise e), []. split; [reflexivity|]. split; [constructor|].
  intros h. unfold raise. now rewrite app_nil_r.
Qed.

Lemma captured_call c : direct_call c -> captured (call c).
Proof.
  intros Hc. exists (Ok tt), [EvKernel c]. split; [reflexivity|].
  split; [repeat constructor; exact Hc|reflexivity].
Qed.

Lemma captured_print msg : captured (print msg).
Proof.
  exists (Ok tt), [EvPrint msg]. split; [reflexivity|].
  split; [constructor|reflexivity].
Qed.

Lemma captured_isfile path : captured (emit (EvIsFile path)).
Proof.
  exists (Ok tt), [EvIsFile path]. split; [reflexivity|].
  split; [constructor|reflexivity].
Qed.

Lemma captured_bind {A B} (m : M A) (k : A -> M B) :
  captured m -> (forall a, captured (k a)) -> captured (bind m k).
Proof.
  intros (r & evs & Hevs & Hcalls & Hm) Hk.
  destruct r as [a|e].
  - destruct (Hk a) as (r2 & evs2 & Hevs2 & Hcalls2 & Hka).
    exists r2, (evs ++ evs2). split; [|split].
    + now rewrite redirect_scope_app, Hevs.
    + pose proof (unlogged_calls_app None evs evs2 None Hevs) as Happ.
      simpl in Happ. rewrite Happ. apply Forall_app. split; assumption.
    + intros h. unfold bind. rewrite Hm, Hka. now rewrite app_assoc.
  - exists (Raise e), evs. split; [assumption|]. split; [assumption|].
    intros h. unfold bind. now rewrite Hm.
Qed.

Lemma captured_redirect {A} env log (body : M A) :
  traces plain body -> captured (common_lib.redirect_output env log body).
Proof.
  intros (r & evs & Hevs & Hbody).
  unfold captured, common_lib.redirect_output.
  destruct (directory_exists env (dirname log)).
  - exists r, (EvRedirect log :: evs ++ [EvRestore log]). split; [|split].
    + simpl. rewrite redirect_scope_app, (redirect_scope_plain _ _ Hevs).
      simpl. now rewrite String.eqb_refl.
    + pose proof (unlogged_calls_app (Some log) evs [EvRestore log] (Some log)
                    (redirect_scope_plain _ _ Hevs)) as Happ.
      simpl in *. rewrite Happ, (unlogged_calls_plain _ Hevs). constructor.
    + intros h. rewrite Hbody.
      f_equal. rewrite <- !app_assoc. reflexivity.
  - eexists _, []. split; [reflexivity|]. split; [constructor|].
    intros h. now rewrite app_nil_r.
Qed.

Ltac captured_step :=
  match goal with
  | |- captured (bind _ _) => apply captured_bind; [|intros ?]
  | |- captured (ret _) => apply captured_ret
  | |- captured (raise _) => apply captured_raise
  | |- captured (call _) => apply captured_call; exact I
  | |- captured (print _) => apply captured_print
  | |- captured (emit (EvIsFile _)) => apply captured_isfile
  | |- captured (common_lib.redirect_output _ _ _) =>
      apply captured_redirect; traces_auto
  | |- captured (if ?b then _ else _) => destruct b
  | |- captured (match ?x with _ => _ end) => destruct x
  end.

Lemma main_captured env argv : captured (intersector.main env argv).
Proof.
  unfold intersector.main, intersector.parse_args, intersector.parse_in_plane,
    common_lib.check_file,
    step_file_lib.find_intersection, step_file_lib.read_step_geometry,
    step_file_lib.create_plane_point_normal, step_file_lib.make_gp_Pnt,
    step_file_lib.make_gp_Dir, step_file_lib.write_step_geometry,
    step_file_lib.compute_dimensions, step_file_lib.combine_geometry_plane,
    step_file_lib.create_face, step_file_lib.plot_geometry.
  repeat captured_step.
Qed.

(** X20.  In every run of [main] the kernel calls made while output is
    on the terminal are only the query [IsNull] on the loaded shape, the
    constructions of the point, of the direction and of the plane, and
    the query [IsDone]: the reader, the section, the exploration, the
    bounding box, the face, the display and the writer are always called
    with their output going to a log. *)
Theorem X20_main_kernel_output_is_logged env argv :
  Forall direct_call (unlogged_calls false (snd (intersector.main env argv []))).
Proof.
  destruct (main_captured env argv) as (r & evs & _ & Hcalls & Hrun).
  rewrite Hrun. exact Hcalls.
Qed.

(* ------------------------------------------------------------------ *)
(** ** An output file named like the image *)

(** X21.  When [--out-step] is the file name of the image (the file
    name of the STEP path with its extension replaced by [.png]), a run
    that finds an intersection gives the STEP writer the path of the
    image it has just exported: the section is written over the image. *)
Theorem X21_out_step_named_like_image env argv shape plane result_shape :
  os_path_isfile env (intersector.in_step argv) = true ->
  List.length (intersector.plane_values argv) = 6%nat ->
  fst (step_file_lib.find_intersection env (intersector.in_step argv)
         (firstn 3 (intersector.plane_values argv))
         (skipn 3 (intersector.plane_values argv)) [])
  = Ok (shape, plane, result_shape, true) ->
  intersector.output_filename argv
  = (stem (intersector.in_step argv) ++ ".png")%string ->
  let output_png := png_path (intersector.in_step argv) in
  let run := intersector.main env argv [] in
  exported_images (snd run) = [output_png]
  /\ step_writes (snd run) = [output_png]
  /\ exists before after,
       snd run = before ++ EvKernel (K_ExportToImage output_png) :: after
       /\ In (EvKernel (K_Write output_png)) after.
Proof.
  intros Hfile Hsix Hfound Hname output_png run.
  assert (Hout : common_lib.output_file_path (intersector.in_step argv)
                   (intersector.output_filename argv) = output_png).
  { rewrite Hname. reflexivity. }
  assert (Hdir : directory_exists env
                   (dirname (common_lib.output_file_path
                               (intersector.in_step argv)
                               (intersector.output_filename argv))) = true).
  { rewrite Hout. unfold output_png, dirname. rewrite png_path_split.
    cbn [fst]. now apply isfile_in_directory. }
  destruct (traces_frame _ _
              (find_intersection_traces env (intersector.in_step argv)
                 (firstn 3 (intersector.plane_values argv))
                 (skipn 3 (intersector.plane_values argv)))) as [Hquiet _].
  apply quiet_observations in Hquiet. destruct Hquiet as (_ & Himg & Hwr).
  unfold run.
  rewrite (main_run_found env argv shape plane result_shape
             Hfile Hsix Hfound Hdir).
  rewrite Hout. cbn [snd].
  set (evs := snd (step_file_lib.find_intersection _ _ _ _ _)) in *.
  split; [|split].
  - unfold exported_images in *. rewrite !observe_app, Himg.
    destruct (Write env result_shape output_png =? 1)%Z; reflexivity.
  - unfold step_writes in *. rewrite !observe_app, Hwr.
    destruct (Write env result_shape output_png =? 1)%Z; reflexivity.
  - exists ([EvIsFile (intersector.in_step argv)] ++ evs
              ++ removelast (removelast
                   (render_events env (intersector.in_step argv) shape plane))),
           ([EvRestore (common_lib.output_file_path
                          (intersector.in_step argv) "lib_occ.log")]
              ++ write_events result_shape output_png
              ++ (if (Write env result_shape output_png =? 1)%Z
                  then [EvPrint ("Intersection found and written to: "
                                   ++ intersector.output_filename argv)%string;
                        EvPrint ("A png file with the geometry and the plane has been written to: "
                                   ++ png_path (intersector.in_step argv))%string]
                  else [])).
    split.
    + rewrite (render_events_export env (intersector.in_step argv) shape plane)
        at 1.
      rewrite <- !app_assoc. reflexivity.
    + apply in_or_app. right. apply in_or_app. left.
      unfold write_events. simpl. tauto.
Qed.

(** [--in-step /data/cube.stp --out-step cube.png]: the image and the
    STEP file are both [/data/cube.png]. *)
Lemma X21_out_step_named_like_image_witness :
  exported_images (snd (intersector.main Demo.env Demo.argv_out_is_image []))
  = ["/data/cube.png"]
  /\ step_writes (snd (intersector.main Demo.env Demo.argv_out_is_image []))
     = ["/data/cube.png"].
Proof.
  destruct (X21_out_step_named_like_image Demo.env Demo.argv_out_is_image
              Demo.cube (mk_gp_Pln (mk_gp_Pnt 0 0 0) (mk_gp_Dir 0 0 1))
              Demo.square_section eq_refl eq_refl eq_refl eq_refl)
    as (Himg & Hwr & _).
  split; [exact Himg|exact Hwr].
Defined.
